(** * Itinerary document compiler of [app.py]

    A shallow embedding of [generate_pdf] and [create_stop_table]: the
    line-oriented parser with its three section states, the stop buffer,
    the timeline rows, and the list of flowables ([story]) handed to the
    PDF library.

    Conventions.
    - A Python [str] is a [string] holding the UTF-8 bytes of the text.
      Substring tests, prefix tests, splitting and replacing with the
      ASCII needles of the source agree on bytes and on code points
      because UTF-8 is self-synchronising; [strip] is written over the
      encodings of the characters Python treats as whitespace.
    - [destination] (a module-level global of the source) and
      [fetch_image] (a network call) are section variables: the image
      resolver is a function from the query to optional image bytes.
    - [st.write] and [print] (progress notices) and the final
      [doc.build] (page layout) are not modelled; [generate_pdf] returns
      the [story] that the source passes to [doc.build]. *)

From Stdlib Require Import String Ascii List Bool Arith Lia.
Import ListNotations.
Open Scope string_scope.
Set Warnings "-register-all".

(** ** Python string operations used by the source *)

Module PyStr.

(** A string given by its bytes. *)
Definition bytes (l : list nat) : string :=
  fold_right (fun n s => String (ascii_of_nat n) s) "" l.

(** [sub in s]. *)
Fixpoint contains (sub s : string) : bool :=
  prefix sub s ||
  match s with
  | "" => false
  | String _ s' => contains sub s'
  end.

(** [s.startswith(pre)]. *)
Definition startswith (pre s : string) : bool := prefix pre s.

Fixpoint drop (n : nat) (s : string) : string :=
  match n, s with
  | S k, String _ s' => drop k s'
  | _, _ => s
  end.

Fixpoint rev (s : string) : string :=
  match s with
  | "" => ""
  | String c s' => rev s' ++ String c ""
  end.

(** [s.replace(old, new)] for a non-empty [old]: occurrences are found
    left to right and do not overlap.  [skip] counts the characters of
    a matched occurrence that are still to be passed over. *)
Fixpoint replace_from (old new : string) (skip : nat) (s : string) : string :=
  match s with
  | "" => ""
  | String c s' =>
    match skip with
    | S k => replace_from old new k s'
    | 0 =>
      if prefix old s
      then new ++ replace_from old new (String.length old - 1) s'
      else String c (replace_from old new 0 s')
    end
  end.

Definition replace (old new s : string) : string := replace_from old new 0 s.

(** [s.split(sep)] for a one-character separator. *)
Fixpoint split (sep : ascii) (s : string) : list string :=
  match s with
  | "" => [""]
  | String c s' =>
    if Ascii.eqb c sep then "" :: split sep s'
    else match split sep s' with
         | h :: t => String c h :: t
         | [] => [String c ""]
         end
  end.

(** [s.split(sep, 1)] for a one-character separator: cut at the first
    occurrence only. *)
Fixpoint split1 (sep : ascii) (s : string) : list string :=
  match s with
  | "" => [""]
  | String c s' =>
    if Ascii.eqb c sep then [""; s']
    else match split1 sep s' with
         | h :: t => String c h :: t
         | [] => [String c ""]
         end
  end.

(** The characters for which [str.isspace] holds, as UTF-8: U+0009 to
    U+000D, U+001C to U+0020, U+0085, U+00A0, U+1680, U+2000 to U+200A,
    U+2028, U+2029, U+202F, U+205F, U+3000. *)
Definition whitespace : list string :=
  map bytes
    [ [9]; [10]; [11]; [12]; [13]; [28]; [29]; [30]; [31]; [32];
      [194; 133]; [194; 160]; [225; 154; 128];
      [226; 128; 128]; [226; 128; 129]; [226; 128; 130]; [226; 128; 131];
      [226; 128; 132]; [226; 128; 133]; [226; 128; 134]; [226; 128; 135];
      [226; 128; 136]; [226; 128; 137]; [226; 128; 138];
      [226; 128; 168]; [226; 128; 169]; [226; 128; 175];
      [226; 129; 159]; [227; 128; 128] ].

(** Remove one leading entry of [tbl], if [s] starts with one. *)
Fixpoint drop_one (tbl : list string) (s : string) : option string :=
  match tbl with
  | [] => None
  | w :: tbl' =>
    if prefix w s then Some (drop (String.length w) s) else drop_one tbl' s
  end.

Fixpoint lstrip_fuel (tbl : list string) (fuel : nat) (s : string) : string :=
  match fuel with
  | 0 => s
  | S f =>
    match drop_one tbl s with
    | Some r => lstrip_fuel tbl f r
    | None => s
    end
  end.

Definition lstrip_with (tbl : list string) (s : string) : string :=
  lstrip_fuel tbl (String.length s) s.

Definition lstrip (s : string) : string := lstrip_with whitespace s.

Definition rstrip (s : string) : string :=
  rev (lstrip_with (map rev whitespace) (rev s)).

(** [s.strip()]. *)
Definition strip (s : string) : string := rstrip (lstrip s).

(** Truth value of a string: [not s] holds for the empty string. *)
Definition is_empty (s : string) : bool :=
  match s with "" => true | _ => false end.

(** [s[:n]] for a non-negative [n]. *)
Fixpoint take (n : nat) (s : string) : string :=
  match n, s with
  | S k, String c s' => String c (take k s')
  | _, _ => ""
  end.

(** [s.endswith(suf)]. *)
Definition endswith (suf s : string) : bool := prefix (rev suf) (rev s).

End PyStr.

(** ** Flowables *)

(** The five paragraph styles built at the head of [generate_pdf]. *)
Inductive Style : Type :=
| style_title | style_header | style_day | style_body | style_bold.

(** [ReportLabImage(img_bytes)].  The bytes are taken to be a picture
    that the PDF library can decode; the drawn size is floating-point
    arithmetic on the decoded picture and is left out. *)
Record ReportLabImage : Type := { img_bytes : string }.

(** The flowables appended to [story].  The source builds two kinds of
    table, each with constant column widths and table style:
    [Table] is [Table(timeline_data, colWidths=[1*inch, 5.5*inch])] and
    [KeepTogether details_text img_col] is
    [KeepTogether(Table([[details_text, img_col]], ...))].  A table holds
    the rows it was built from: later appends to [timeline_data] do not
    reach a table already in the story. *)
Inductive Flowable : Type :=
| Paragraph (text : string) (style : Style)
| Spacer (width height : nat)
| PageBreak
| Table (data : list (list string))
| KeepTogether (details_text : list Flowable) (img_col : list ReportLabImage).

Inductive Section : Type := NORMAL | TIMELINE | ITINERARY.

(** The local variables of [generate_pdf] that the loop updates. *)
Record State : Type := mkState {
  story : list Flowable;
  current_day : string;
  stop_buffer : list string;
  timeline_data : list (list string);
  section_state : Section
}.

Definition icon_pin : string := PyStr.bytes [239; 163; 191; 195; 188; 195; 172; 195; 167].
Definition icon_clock : string := PyStr.bytes [239; 163; 191; 195; 188; 195; 175; 195; 173].
Definition icon_taxi : string := PyStr.bytes [239; 163; 191; 195; 188; 195; 182; 195; 175].
Definition icon_plate : string :=
  PyStr.bytes [239; 163; 191; 195; 188; 195; 167; 206; 169; 195; 148; 226; 136; 143; 195; 168].

Section Compiler.

Variable destination : string.
Variable fetch_image : string -> option string.

(** One iteration of the loop over the buffered lines in
    [create_stop_table]; the accumulator is [(place_name, details_text)]. *)
Definition stop_line (acc : string * list Flowable) (line : string)
  : string * list Flowable :=
  let '(place_name, details_text) := acc in
  if PyStr.startswith "STOP:" line then
    let place_name := PyStr.strip (PyStr.replace "STOP:" "" line) in
    (place_name,
     (details_text ++
      [Paragraph ("<b>" ++ icon_pin ++ " " ++ place_name ++ "</b>") style_bold])%list)
  else if PyStr.startswith "BEST TIME:" line then
    (place_name,
     (details_text ++
      [Paragraph ("<b>" ++ icon_clock ++ " Best Time:</b> " ++ PyStr.replace "BEST TIME:" "" line)
                 style_body])%list)
  else if PyStr.startswith "LOGISTICS:" line then
    (place_name,
     (details_text ++
      [Paragraph ("<b>" ++ icon_taxi ++ " Logistics:</b> " ++ PyStr.replace "LOGISTICS:" "" line)
                 style_body])%list)
  else if PyStr.startswith "FOOD:" line then
    (place_name,
     (details_text ++
      [Spacer 1 5; Paragraph ("<b>" ++ icon_plate ++ " Nearby Eats:</b>") style_bold])%list)
  else
    (place_name, (details_text ++ [Paragraph line style_body])%list).

(** [create_stop_table(story, lines, style_body, style_bold)]: the
    story after the panel of the buffered stop has been appended. *)
Definition create_stop_table (story : list Flowable) (lines : list string)
  : list Flowable :=
  let '(place_name, details_text) := fold_left stop_line lines ("", []) in
  let search_query := destination ++ " " ++ place_name in
  let img_col :=
    match fetch_image search_query with
    | Some img_bytes => [{| img_bytes := img_bytes |}]
    | None => []
    end in
  (story ++ [KeepTogether details_text img_col; Spacer 1 15])%list.

(** The body of the main loop for a line that is already stripped and
    not empty. *)
Definition process_line (s : State) (line : string) : State :=
  if PyStr.contains "TIMELINE_START" line then
    mkState (story s ++ [Paragraph "Trip at a Glance" style_header; Spacer 1 10])
            (current_day s) (stop_buffer s) (timeline_data s) TIMELINE
  else if PyStr.contains "TIMELINE_END" line then
    mkState (story s ++ [Table (timeline_data s); PageBreak])
            (current_day s) (stop_buffer s) (timeline_data s) NORMAL
  else if PyStr.contains "ITINERARY_START" line then
    mkState (story s ++ [Paragraph "Detailed Visual Guide" style_header])
            (current_day s) (stop_buffer s) (timeline_data s) ITINERARY
  else if PyStr.contains "ITINERARY_END" line then
    mkState (match stop_buffer s with
             | [] => story s
             | _ :: _ => create_stop_table (story s) (stop_buffer s)
             end)
            (current_day s) (stop_buffer s) (timeline_data s) NORMAL
  else
    match section_state s with
    | TIMELINE =>
      if PyStr.contains ":" line then
        let parts := PyStr.split1 ":" line in
        if Nat.eqb (length parts) 2 then
          mkState (story s) (current_day s) (stop_buffer s)
                  (timeline_data s ++
                   [[PyStr.strip (nth 0 parts ""); PyStr.strip (nth 1 parts "")]])
                  (section_state s)
        else s
      else s
    | ITINERARY =>
      if PyStr.startswith "Day" line then
        mkState (story s ++
                 [Paragraph line style_day;
                  Paragraph "<hr width='100%' color='#D4AF37'/>" style_body])
                line (stop_buffer s) (timeline_data s) (section_state s)
      else if PyStr.startswith "STOP:" line then
        match stop_buffer s with
        | [] =>
          mkState (story s) (current_day s) [line] (timeline_data s) (section_state s)
        | _ :: _ =>
          mkState (create_stop_table (story s) (stop_buffer s))
                  (current_day s) [line] (timeline_data s) (section_state s)
        end
      else
        match stop_buffer s with
        | [] => s
        | _ :: _ =>
          mkState (story s) (current_day s) (stop_buffer s ++ [line])
                  (timeline_data s) (section_state s)
        end
    | NORMAL =>
      if PyStr.contains "TITLE:" line then
        mkState (story s ++ [Paragraph (PyStr.strip (PyStr.replace "TITLE:" "" line)) style_title])
                (current_day s) (stop_buffer s) (timeline_data s) (section_state s)
      else if PyStr.contains "OVERVIEW:" line then
        mkState (story s ++ [Paragraph "Trip Overview" style_header])
                (current_day s) (stop_buffer s) (timeline_data s) (section_state s)
      else if PyStr.contains "GETTING_THERE:" line then
        mkState (story s ++
                 [Spacer 1 10; Paragraph ("How to Reach " ++ destination) style_header])
                (current_day s) (stop_buffer s) (timeline_data s) (section_state s)
      else if PyStr.contains "TRAVEL_TIPS:" line then
        mkState (story s ++ [PageBreak; Paragraph "Travel Tips" style_header])
                (current_day s) (stop_buffer s) (timeline_data s) (section_state s)
      else
        mkState (story s ++ [Paragraph line style_body])
                (current_day s) (stop_buffer s) (timeline_data s) (section_state s)
    end.

(** One iteration of [for line in lines]: strip, skip empty lines. *)
Definition loop_body (s : State) (raw : string) : State :=
  let line := PyStr.strip raw in
  if PyStr.is_empty line then s else process_line s line.

(** The values of the locals before the loop. *)
Definition initial_state : State :=
  mkState [] "" [] [["Day"; "Summary"]] NORMAL.

(** The state when the loop over [lines] ends. *)
Definition run_lines (s : State) (lines : list string) : State :=
  fold_left loop_body lines s.

Definition final_state (text_content : string) : State :=
  run_lines initial_state (PyStr.split "010" text_content).

(** The story that [generate_pdf(text_content)] hands to [doc.build]:
    nothing is appended to it after the loop. *)
Definition generate_pdf (text_content : string) : list Flowable :=
  story (final_state text_content).

(** The file name returned by [generate_pdf]. *)
Definition pdf_filename : string :=
  "Itinerary_" ++ PyStr.replace " " "_" destination ++ ".pdf".

End Compiler.

(** ** Inputs used in the examples *)

Definition nl : string := String "010" "".

(** [lines_text [l1; ...; ln]] is [l1 \n ... \n ln]. *)
Fixpoint lines_text (ls : list string) : string :=
  match ls with
  | [] => ""
  | [l] => l
  | l :: ls' => l ++ nl ++ lines_text ls'
  end.

Definition paris_input : string :=
  lines_text
    [ "TITLE: Paris Trip"; "OVERVIEW: Great city"; "TIMELINE_START";
      "Day 1: Arrival"; "TIMELINE_END"; "ITINERARY_START";
      "Day 1: Arrival Day"; "STOP: Eiffel Tower"; "BEST TIME: 9 AM";
      "ITINERARY_END"; "TRAVEL_TIPS:"; "Bring a coat" ].

Definition two_days_input : string :=
  lines_text
    [ "ITINERARY_START"; "Day 1: Arrival"; "STOP: Eiffel Tower";
      "Day 2: Museums"; "STOP: Louvre"; "ITINERARY_END" ].

Definition unterminated_input : string :=
  lines_text [ "ITINERARY_START"; "STOP: Eiffel Tower"; "BEST TIME: 9 AM" ].

Definition double_end_input : string :=
  lines_text [ "ITINERARY_START"; "STOP: Eiffel Tower"; "ITINERARY_END"; "ITINERARY_END" ].

Definition two_timelines_input : string :=
  lines_text
    [ "TITLE: Paris Trip"; "TIMELINE_START"; "Day 1: Arrival"; "TIMELINE_END";
      "OVERVIEW: Great city"; "TIMELINE_START"; "Day 2: Louvre"; "TIMELINE_END";
      "Bring a coat" ].

Definition hr_rule : Flowable :=
  Paragraph "<hr width='100%' color='#D4AF37'/>" style_body.

Definition stop_heading (place_name : string) : Flowable :=
  Paragraph ("<b>" ++ icon_pin ++ " " ++ place_name ++ "</b>") style_bold.

(** The image cell that [create_stop_table] builds for a place. *)
Definition image_cell (destination : string) (fetch_image : string -> option string)
  (place_name : string) : list ReportLabImage :=
  match fetch_image (destination ++ " " ++ place_name) with
  | Some img_bytes => [{| img_bytes := img_bytes |}]
  | None => []
  end.

(** The block sequence listed for the Paris scenario, with the contents
    of the stop panel left open. *)
Definition paris_listed (details_text : list Flowable) (img_col : list ReportLabImage)
  : list Flowable :=
  [ Paragraph "Paris Trip" style_title;
    Paragraph "Trip Overview" style_header;
    Table [["Day"; "Summary"]; ["Day 1"; "Arrival"]];
    PageBreak;
    Paragraph "Detailed Visual Guide" style_header;
    Paragraph "Day 1: Arrival Day" style_day;
    hr_rule;
    KeepTogether details_text img_col;
    PageBreak;
    Paragraph "Travel Tips" style_header;
    Paragraph "Bring a coat" style_body ].

Definition is_spacer (b : Flowable) : bool :=
  match b with Spacer _ _ => true | _ => false end.

Definition without_spacers (story : list Flowable) : list Flowable :=
  filter (fun b => negb (is_spacer b)) story.

(** ** Notions used to state the properties *)

(** The section marker a line is taken for: the four tests at the head
    of the loop body, in the order of the source. *)
Inductive Marker : Type :=
| TIMELINE_START | TIMELINE_END | ITINERARY_START | ITINERARY_END.

Definition marker_of (line : string) : option Marker :=
  if PyStr.contains "TIMELINE_START" line then Some TIMELINE_START
  else if PyStr.contains "TIMELINE_END" line then Some TIMELINE_END
  else if PyStr.contains "ITINERARY_START" line then Some ITINERARY_START
  else if PyStr.contains "ITINERARY_END" line then Some ITINERARY_END
  else None.

(** Balanced markers: reading the marker lines in order, each kind of
    section is closed only when it is open, and both kinds are closed at
    the end.  [t] and [i] count the open TIMELINE and ITINERARY starts. *)
Fixpoint balanced_from (t i : nat) (lines : list string) : bool :=
  match lines with
  | [] => Nat.eqb t 0 && Nat.eqb i 0
  | raw :: rest =>
    match marker_of (PyStr.strip raw) with
    | Some TIMELINE_START => balanced_from (S t) i rest
    | Some TIMELINE_END =>
      match t with 0 => false | S t' => balanced_from t' i rest end
    | Some ITINERARY_START => balanced_from t (S i) rest
    | Some ITINERARY_END =>
      match i with 0 => false | S i' => balanced_from t i' rest end
    | None => balanced_from t i rest
    end
  end.

Definition balanced (text_content : string) : bool :=
  balanced_from 0 0 (PyStr.split "010" text_content).

(** A string that neither starts nor ends with a whitespace character. *)
Definition trimmed (s : string) : Prop :=
  PyStr.drop_one PyStr.whitespace s = None /\
  PyStr.drop_one (map PyStr.rev PyStr.whitespace) (PyStr.rev s) = None.

(** Strings made of entries of [tbl] only. *)
Inductive all_of (tbl : list string) : string -> Prop :=
| all_of_nil : all_of tbl ""
| all_of_cons w s : In w tbl -> all_of tbl s -> all_of tbl (w ++ s).

(** The rows that a stripped line, and a block of raw lines, add to
    [timeline_data] while the section is TIMELINE. *)
Definition timeline_row (line : string) : list (list string) :=
  if PyStr.contains ":" line then
    let parts := PyStr.split1 ":" line in
    [[PyStr.strip (nth 0 parts ""); PyStr.strip (nth 1 parts "")]]
  else [].

Definition timeline_rows (raws : list string) : list (list string) :=
  flat_map (fun raw => timeline_row (PyStr.strip raw)) raws.

Definition no_marker (raw : string) : bool :=
  match marker_of (PyStr.strip raw) with None => true | Some _ => false end.

Definition no_timeline_marker (raw : string) : bool :=
  match marker_of (PyStr.strip raw) with
  | Some TIMELINE_START | Some TIMELINE_END => false
  | _ => true
  end.

Definition is_panel (b : Flowable) : bool :=
  match b with KeepTogether _ _ => true | _ => false end.

Definition is_table (b : Flowable) : bool :=
  match b with Table _ => true | _ => false end.

(** A stop panel with its image cell emptied; other blocks unchanged. *)
Definition erase_image (b : Flowable) : Flowable :=
  match b with
  | KeepTogether details_text _ => KeepTogether details_text []
  | _ => b
  end.

(** A block that, if it is a stop panel, has a non-empty text column and
    an empty image column. *)
Definition text_only_panel (b : Flowable) : Prop :=
  match b with
  | KeepTogether details_text img_col => details_text <> [] /\ img_col = []
  | _ => True
  end.

Definition no_image : string -> option string := fun _ => None.

Definition erase_state (s : State) : State :=
  mkState (map erase_image (story s)) (current_day s) (stop_buffer s)
          (timeline_data s) (section_state s).

(** ** Further notions *)

(** A raw line that the loop skips: it strips to the empty string. *)
Definition is_blank (raw : string) : bool := PyStr.is_empty (PyStr.strip raw).


(** Timeline data as the loop keeps it: the header row, then rows of
    two cells each. *)
Definition rows_ok (data : list (list string)) : Prop :=
  exists rows, data = ["Day"; "Summary"] :: rows /\
               Forall (fun row => length row = 2) rows.

Definition table_ok (b : Flowable) : Prop :=
  match b with
  | Table data => rows_ok data
  | _ => True
  end.


(** The state keeps its rows well formed, and every table of the story
    holds well-formed rows that the current rows extend. *)
Definition tables_inv (s : State) : Prop :=
  rows_ok (timeline_data s) /\
  Forall table_ok (story s) /\
  (forall d, In (Table d) (story s) -> exists r, timeline_data s = (d ++ r)%list) /\
  (forall i j d1 d2,
      i < j ->
      nth_error (story s) i = Some (Table d1) ->
      nth_error (story s) j = Some (Table d2) ->
      exists r, d2 = (d1 ++ r)%list).

(** The place name that [create_stop_table] reads off a [STOP:] line. *)
Definition place_of (line : string) : string :=
  PyStr.strip (PyStr.replace "STOP:" "" line).

(** A stop buffer as the loop fills it: empty, or one [STOP:] line
    followed by lines that do not start with [STOP:]. *)
Definition buffer_ok (buf : list string) : Prop :=
  match buf with
  | [] => True
  | first :: rest =>
    PyStr.startswith "STOP:" first = true /\
    Forall (fun l => PyStr.startswith "STOP:" l = false) rest
  end.

(** A panel whose text column opens with the heading of the place named
    on a [STOP:] line and whose image cell is the one fetched for that
    place. *)
Definition panel_headed (destination : string) (fetch_image : string -> option string)
  (b : Flowable) : Prop :=
  match b with
  | KeepTogether details_text img_col =>
    exists line rest,
      PyStr.startswith "STOP:" line = true /\
      details_text = stop_heading (place_of line) :: rest /\
      img_col = image_cell destination fetch_image (place_of line)
  | _ => True
  end.


(** The section state that a marker line sets. *)
Definition section_after (m : Marker) : Section :=
  match m with
  | TIMELINE_START => TIMELINE
  | ITINERARY_START => ITINERARY
  | TIMELINE_END | ITINERARY_END => NORMAL
  end.

Definition opens_stop (raw : string) : bool :=
  PyStr.startswith "STOP:" (PyStr.strip raw).

Definition opens_itinerary (raw : string) : bool :=
  PyStr.contains "ITINERARY_START" (PyStr.strip raw).


(** ** Configuration, image download and the main run of [app.py] *)

(** [get_env(key)]: the process environment first; when the variable is
    unset or empty, the secrets store.  [environ] is [os.getenv] and
    [secrets] the lookup in [st.secrets], taken to be readable, with
    string values. *)
Definition get_env (environ secrets : string -> option string) (key : string)
  : option string :=
  match environ key with
  | Some val =>
    if PyStr.is_empty val then
      match secrets key with
      | Some v => Some v
      | None => None
      end
    else Some val
  | None =>
    match secrets key with
    | Some v => Some v
    | None => None
    end
  end.

(** [v or default] for an optional string [v]. *)
Definition or_default (v : option string) (default : string) : string :=
  match v with
  | Some s => if PyStr.is_empty s then default else s
  | None => default
  end.

Definition OPENAI_KEY (environ secrets : string -> option string) : string :=
  or_default (get_env environ secrets "OPENAI_API_KEY") "YOUR_OPENAI_KEY_HERE".

Definition UNSPLASH_KEY (environ secrets : string -> option string) : string :=
  or_default (get_env environ secrets "UNSPLASH_ACCESS_KEY") "YOUR_UNSPLASH_KEY_HERE".

Definition EMAIL_ADDRESS (environ secrets : string -> option string) : string :=
  or_default (get_env environ secrets "EMAIL_ADDRESS") "YOUR_EMAIL_HERE".

Definition EMAIL_PASSWORD (environ secrets : string -> option string) : string :=
  or_default (get_env environ secrets "EMAIL_PASSWORD") "YOUR_APP_PASSWORD_HERE".

(** [all(values)] for a list of strings. *)
Definition all_truthy (values : list string) : bool :=
  forallb (fun v => negb (PyStr.is_empty v)) values.

(** What a call of the HTTP client gives: an exception or a value. *)
Inductive Outcome (A : Type) : Type :=
| Raised
| Returned (a : A).

Arguments Raised {A}.
Arguments Returned {A} a.

(** One entry of the [results] list of the search reply;
    [urls_small] is [entry["urls"]["small"]], absent when a key is
    missing. *)
Record Photo : Type := { urls_small : option string }.

(** [fetch_image(query)] over the two HTTP calls it makes: [search] is
    the request to the photo search with its decoded [results] (the
    empty list when the reply has none), [download] the request for the
    picture.  Every exception inside the [try] ends in [return None]. *)
Definition fetch_image (search : string -> Outcome (list Photo))
  (download : string -> Outcome string) (query : string) : option string :=
  match search query with
  | Returned (photo :: _) =>
    match urls_small photo with
    | Some img_url =>
      match download img_url with
      | Returned content => Some content
      | Raised => None
      end
    | None => None
    end
  | Returned [] => None
  | Raised => None
  end.

(** The visible steps of the main run. *)
Inductive Action : Type :=
| error_fill_form
| error_keys_missing
| generate_itinerary_text
| build_pdf (pdf_file : string) (story : list Flowable)
| send_email_with_pdf (pdf_file target_email : string)
| success (email : string)
| download_button (pdf_file : string).

(** The main run after the form: [raw_text] is what
    [generate_itinerary_text] returns when it is called ([None] after a
    failure), [email_sent] what [send_email_with_pdf] returns when it is
    called, [resolver] the image download used by [generate_pdf]. *)
Definition main_run (environ secrets : string -> option string)
  (submit_btn : bool) (source destination email : string)
  (raw_text : option string) (email_sent : bool)
  (resolver : string -> option string) : list Action :=
  if submit_btn then
    if negb (all_truthy [source; destination; email]) then [error_fill_form]
    else if negb (all_truthy [OPENAI_KEY environ secrets; UNSPLASH_KEY environ secrets;
                              EMAIL_PASSWORD environ secrets])
    then [error_keys_missing]
    else
      generate_itinerary_text ::
      match raw_text with
      | Some text =>
        if PyStr.is_empty text then []
        else
          let pdf_file := pdf_filename destination in
          build_pdf pdf_file (generate_pdf destination resolver text) ::
          send_email_with_pdf pdf_file email ::
          (if email_sent then [success email; download_button pdf_file] else [])
      | None => []
      end
  else [].


(** ** Reply clean-up of [travel_agent_py.py] *)

(** The text that [generate_itinerary] passes to [json.loads]: the reply
    stripped, a leading [```json] and then a leading [```] cut off, a
    trailing [```] cut off, and the rest stripped again. *)
Definition json_text (reply : string) : string :=
  let content := PyStr.strip reply in
  let content :=
    if PyStr.startswith "```json" content then PyStr.drop 7 content else content in
  let content :=
    if PyStr.startswith "```" content then PyStr.drop 3 content else content in
  let content :=
    if PyStr.endswith "```" content
    then PyStr.take (String.length content - 3) content
    else content in
  PyStr.strip content.

(** A reply wrapped in a code fence, each fence on a line of its own. *)
Definition fenced (tag body : string) : string :=
  "```" ++ tag ++ nl ++ body ++ nl ++ "```".


(** ** The day marker, the end of the stream and the end marker *)

(** C1 (code at the failing input).  In a two-day itinerary the line
    [Day 2: Museums] only appends its heading and rule: the stop opened
    under day 1 stays in the buffer and its panel is appended after the
    heading of day 2, when the next [STOP:] line arrives. *)
Theorem day_marker_keeps_open_stop :
  forall (destination : string) (fetch_image : string -> option string),
    generate_pdf destination fetch_image two_days_input =
    [ Paragraph "Detailed Visual Guide" style_header;
      Paragraph "Day 1: Arrival" style_day; hr_rule;
      Paragraph "Day 2: Museums" style_day; hr_rule;
      KeepTogether [stop_heading "Eiffel Tower"]
                   (image_cell destination fetch_image "Eiffel Tower");
      Spacer 1 15;
      KeepTogether [stop_heading "Louvre"]
                   (image_cell destination fetch_image "Louvre");
      Spacer 1 15 ].
Proof.
  intros destination fetch_image. vm_compute. reflexivity.
Qed.

(** C2 (code at the failing input).  When the stream ends inside the
    itinerary with a stop still buffered, the loop ends with the two
    lines in [stop_buffer] and the story holds the section header only:
    no panel is appended for the buffered stop. *)
Theorem open_stop_lost_at_end_of_stream :
  forall (destination : string) (fetch_image : string -> option string),
    stop_buffer (final_state destination fetch_image unterminated_input) =
      ["STOP: Eiffel Tower"; "BEST TIME: 9 AM"] /\
    section_state (final_state destination fetch_image unterminated_input) = ITINERARY /\
    generate_pdf destination fetch_image unterminated_input =
      [ Paragraph "Detailed Visual Guide" style_header ].
Proof.
  intros destination fetch_image. vm_compute. repeat split.
Qed.

(** C3 (code at the failing input).  The flush at [ITINERARY_END] does
    not empty the buffer: after the first end marker the stop is still
    buffered, and a second end marker appends its panel again. *)
Theorem end_marker_keeps_buffer :
  forall (destination : string) (fetch_image : string -> option string),
    stop_buffer (final_state destination fetch_image double_end_input) =
      ["STOP: Eiffel Tower"] /\
    generate_pdf destination fetch_image double_end_input =
      [ Paragraph "Detailed Visual Guide" style_header;
        KeepTogether [stop_heading "Eiffel Tower"]
                     (image_cell destination fetch_image "Eiffel Tower");
        Spacer 1 15;
        KeepTogether [stop_heading "Eiffel Tower"]
                     (image_cell destination fetch_image "Eiffel Tower");
        Spacer 1 15 ].
Proof.
  intros destination fetch_image. vm_compute. split; reflexivity.
Qed.

(** ** The Paris scenario *)

(** C4 (counterexample).  With destination Paris and no image, the third
    block of the story is the header [Trip at a Glance], and the story is
    not the listed sequence, even when spacers are left out of the
    comparison and whatever the contents of the stop panel. *)
Lemma paris_listed_sequence_fails :
  nth_error (generate_pdf "Paris" no_image paris_input) 2 =
    Some (Paragraph "Trip at a Glance" style_header) /\
  ~ (exists details_text img_col,
       without_spacers (generate_pdf "Paris" no_image paris_input) =
       paris_listed details_text img_col).
Proof.
  split.
  - vm_compute. reflexivity.
  - intros (details_text & img_col & H). vm_compute in H. discriminate H.
Qed.

(** C4 (amended).  The story of the Paris scenario, block by block: the
    title, the header [Trip Overview], the header [Trip at a Glance] and
    a spacer, the timeline table with the header row and one data row, a
    page break, the header [Detailed Visual Guide], the day heading and
    its rule, the panel of the Eiffel Tower with its best-time line, a
    spacer, a page break, the header [Travel Tips] and the paragraph
    [Bring a coat]. *)
Theorem paris_story :
  forall (destination : string) (fetch_image : string -> option string),
    generate_pdf destination fetch_image paris_input =
    [ Paragraph "Paris Trip" style_title;
      Paragraph "Trip Overview" style_header;
      Paragraph "Trip at a Glance" style_header;
      Spacer 1 10;
      Table [["Day"; "Summary"]; ["Day 1"; "Arrival"]];
      PageBreak;
      Paragraph "Detailed Visual Guide" style_header;
      Paragraph "Day 1: Arrival Day" style_day;
      hr_rule;
      KeepTogether
        [ stop_heading "Eiffel Tower";
          Paragraph ("<b>" ++ icon_clock ++ " Best Time:</b> " ++ " 9 AM") style_body ]
        (image_cell destination fetch_image "Eiffel Tower");
      Spacer 1 15;
      PageBreak;
      Paragraph "Travel Tips" style_header;
      Paragraph "Bring a coat" style_body ].
Proof.
  intros destination fetch_image. vm_compute. reflexivity.
Qed.

(** ** Facts about the string operations *)

Lemma append_nil_r (s : string) : s ++ "" = s.
Proof. induction s as [|c s IH]; simpl; [reflexivity | now rewrite IH]. Qed.

Lemma append_assoc (a b c : string) : (a ++ b) ++ c = a ++ b ++ c.
Proof. induction a as [|x a IH]; simpl; [reflexivity | now rewrite IH]. Qed.

Lemma length_append (a b : string) :
  String.length (a ++ b) = String.length a + String.length b.
Proof. induction a as [|x a IH]; simpl; [reflexivity | now rewrite IH]. Qed.

Lemma prefix_cons (a b : ascii) (w s : string) :
  prefix (String a w) (String b s) = true <-> a = b /\ prefix w s = true.
Proof.
  simpl. destruct (ascii_dec a b) as [E|N].
  - split; [intros H; now split | intros [_ H]; exact H].
  - split; [discriminate | intros [E _]; contradiction].
Qed.

Lemma prefix_drop (w s : string) :
  prefix w s = true -> s = w ++ PyStr.drop (String.length w) s.
Proof.
  revert s. induction w as [|a w IH]; intros s H.
  - destruct s; reflexivity.
  - destruct s as [|b s]; [discriminate H|].
    apply prefix_cons in H. destruct H as [-> H].
    simpl. f_equal. apply IH, H.
Qed.

Lemma prefix_append (w t : string) : prefix w (w ++ t) = true.
Proof.
  induction w as [|a w IH]; simpl.
  - destruct t; reflexivity.
  - destruct (ascii_dec a a) as [_|N]; [exact IH | now elim N].
Qed.

Lemma prefix_append_l (w p r : string) :
  prefix w p = true -> prefix w (p ++ r) = true.
Proof.
  intros H. rewrite (prefix_drop w p H), append_assoc. apply prefix_append.
Qed.

Lemma prefix_nil_r (w : string) : w <> "" -> prefix w "" = false.
Proof. destruct w; [congruence | reflexivity]. Qed.

Lemma rev_append (a b : string) :
  PyStr.rev (a ++ b) = PyStr.rev b ++ PyStr.rev a.
Proof.
  induction a as [|x a IH]; simpl.
  - now rewrite append_nil_r.
  - now rewrite IH, append_assoc.
Qed.

Lemma rev_involutive (s : string) : PyStr.rev (PyStr.rev s) = s.
Proof.
  induction s as [|c s IH]; simpl; [reflexivity|].
  rewrite rev_append, IH. reflexivity.
Qed.

Lemma drop_one_None (tbl : list string) (s : string) :
  PyStr.drop_one tbl s = None <-> Forall (fun w => prefix w s = false) tbl.
Proof.
  induction tbl as [|w tbl IH]; simpl.
  - split; [constructor | reflexivity].
  - destruct (prefix w s) eqn:E.
    + split; [discriminate | intros H; inversion H; congruence].
    + rewrite IH. split; [now constructor | intros H; now inversion H].
Qed.

Lemma drop_one_Some (tbl : list string) (s r : string) :
  PyStr.drop_one tbl s = Some r -> exists w, In w tbl /\ s = w ++ r.
Proof.
  induction tbl as [|w tbl IH]; simpl; [discriminate|].
  destruct (prefix w s) eqn:E.
  - intros H. injection H as <-. exists w. split; [now left | now apply prefix_drop].
  - intros H. destruct (IH H) as (w' & Hin & Hs). exists w'. split; [now right | exact Hs].
Qed.

Lemma all_of_one (tbl : list string) (w : string) : In w tbl -> all_of tbl w.
Proof.
  intros H. rewrite <- (append_nil_r w). apply all_of_cons; [exact H | constructor].
Qed.

Lemma all_of_app (tbl : list string) (a b : string) :
  all_of tbl a -> all_of tbl b -> all_of tbl (a ++ b).
Proof.
  intros Ha Hb. induction Ha as [|w s Hin Hs IH]; simpl; [exact Hb|].
  rewrite append_assoc. now apply all_of_cons.
Qed.

Lemma all_of_rev (tbl : list string) (h : string) :
  all_of (map PyStr.rev tbl) h -> all_of tbl (PyStr.rev h).
Proof.
  intros H. induction H as [|w s Hin Hs IH]; simpl; [constructor|].
  rewrite rev_append. apply all_of_app; [exact IH|].
  apply in_map_iff in Hin. destruct Hin as (w0 & <- & Hin).
  rewrite rev_involutive. now apply all_of_one.
Qed.

(** What the fuelled loop of [lstrip_with] computes when the fuel covers
    the string: a decomposition into leading table entries and a rest
    that starts with none. *)
Lemma lstrip_fuel_spec (tbl : list string) :
  Forall (fun w => w <> "") tbl ->
  forall (fuel : nat) (s : string),
    String.length s <= fuel ->
    exists l, s = l ++ PyStr.lstrip_fuel tbl fuel s /\
              all_of tbl l /\
              PyStr.drop_one tbl (PyStr.lstrip_fuel tbl fuel s) = None.
Proof.
  intros Hne. induction fuel as [|f IH]; intros s Hlen.
  - destruct s; [|simpl in Hlen; lia]. exists "". simpl.
    split; [reflexivity|]. split; [constructor|].
    apply drop_one_None. eapply Forall_impl; [|exact Hne].
    intros w Hw. now apply prefix_nil_r.
  - simpl. destruct (PyStr.drop_one tbl s) as [r|] eqn:E.
    + destruct (drop_one_Some _ _ _ E) as (w & Hin & Hs).
      assert (Hw : w <> "") by (rewrite Forall_forall in Hne; now apply Hne).
      assert (Hr : String.length r <= f).
      { subst s. rewrite length_append in Hlen.
        destruct w; [congruence | simpl in Hlen; lia]. }
      destruct (IH r Hr) as (l & Hl & Hall & Hnone).
      exists (w ++ l). split; [|split].
      * rewrite append_assoc, <- Hl. exact Hs.
      * now apply all_of_cons.
      * exact Hnone.
    + exists "". split; [reflexivity|]. split; [constructor | exact E].
Qed.

Lemma lstrip_with_spec (tbl : list string) (s : string) :
  Forall (fun w => w <> "") tbl ->
  exists l, s = l ++ PyStr.lstrip_with tbl s /\
            all_of tbl l /\
            PyStr.drop_one tbl (PyStr.lstrip_with tbl s) = None.
Proof.
  intros Hne. apply lstrip_fuel_spec; [exact Hne | apply Nat.le_refl].
Qed.

Lemma whitespace_nonempty : Forall (fun w => w <> "") PyStr.whitespace.
Proof. repeat constructor; discriminate. Qed.

Lemma rev_whitespace_nonempty :
  Forall (fun w => w <> "") (map PyStr.rev PyStr.whitespace).
Proof. repeat constructor; discriminate. Qed.

(** [strip] removes whitespace characters only, at both ends, and what
    it returns is trimmed. *)
Lemma strip_spec (x : string) :
  (exists l r, x = l ++ PyStr.strip x ++ r /\
               all_of PyStr.whitespace l /\ all_of PyStr.whitespace r) /\
  trimmed (PyStr.strip x).
Proof.
  unfold PyStr.strip, PyStr.rstrip, PyStr.lstrip.
  destruct (lstrip_with_spec PyStr.whitespace x whitespace_nonempty)
    as (l & Hx & Hl & Hnone).
  set (y := PyStr.lstrip_with PyStr.whitespace x) in *.
  destruct (lstrip_with_spec (map PyStr.rev PyStr.whitespace) (PyStr.rev y)
              rev_whitespace_nonempty) as (h & Hy & Hh & Hnone').
  set (z := PyStr.lstrip_with (map PyStr.rev PyStr.whitespace) (PyStr.rev y)) in *.
  assert (Hy' : y = PyStr.rev z ++ PyStr.rev h).
  { rewrite <- rev_append, <- Hy, rev_involutive. reflexivity. }
  split.
  - exists l, (PyStr.rev h). split; [|split].
    + rewrite <- Hy'. exact Hx.
    + exact Hl.
    + now apply all_of_rev.
  - split.
    + apply drop_one_None. rewrite drop_one_None in Hnone.
      eapply Forall_impl; [|exact Hnone]. intros w Hw. simpl in Hw.
      destruct (prefix w (PyStr.rev z)) eqn:E; [|reflexivity].
      rewrite Hy', (prefix_append_l _ _ _ E) in Hw. discriminate Hw.
    + rewrite rev_involutive. exact Hnone'.
Qed.

Lemma contains_char_cons (x c : ascii) (s : string) :
  PyStr.contains (String x "") (String c s) =
  Ascii.eqb x c || PyStr.contains (String x "") s.
Proof.
  simpl. destruct (ascii_dec x c) as [E|N].
  - subst. rewrite Ascii.eqb_refl. destruct s; reflexivity.
  - apply Ascii.eqb_neq in N. rewrite N. reflexivity.
Qed.

(** When the separator occurs, [split1] returns the text before its
    first occurrence and the text after it. *)
Lemma split1_first (sep : ascii) (line : string) :
  PyStr.contains (String sep "") line = true ->
  exists a b, PyStr.split1 sep line = [a; b] /\
              line = a ++ String sep b /\
              PyStr.contains (String sep "") a = false.
Proof.
  induction line as [|c line IH]; intros H.
  - simpl in H. discriminate H.
  - rewrite contains_char_cons in H. simpl.
    destruct (Ascii.eqb c sep) eqn:E.
    + apply Ascii.eqb_eq in E. subst c. exists "", line. repeat split.
    + rewrite Ascii.eqb_sym, E in H. simpl in H.
      destruct (IH H) as (a & b & Hs & Hl & Ha).
      exists (String c a), b. rewrite Hs. split; [reflexivity|]. split.
      * simpl. now rewrite <- Hl.
      * rewrite contains_char_cons, Ascii.eqb_sym, E. exact Ha.
Qed.

(** ** Section state *)

Ltac split_if :=
  match goal with
  | |- context [if ?b then _ else _] => destruct b eqn:?
  end.

Ltac split_buffer s :=
  match goal with
  | |- context [stop_buffer s] => destruct (stop_buffer s) eqn:?
  end.

Section ParserFacts.

Variable destination : string.
Variable fetch_image : string -> option string.

Abbreviation process := (process_line destination fetch_image).
Abbreviation body := (loop_body destination fetch_image).
Abbreviation run := (run_lines destination fetch_image).

(** The section state after a line depends on the marker the line is
    taken for, and on nothing else when it is a marker. *)
Lemma process_line_section (s : State) (line : string) :
  section_state (process s line) =
  match marker_of line with
  | Some TIMELINE_START => TIMELINE
  | Some ITINERARY_START => ITINERARY
  | Some TIMELINE_END | Some ITINERARY_END => NORMAL
  | None => section_state s
  end.
Proof.
  unfold process_line, marker_of. cbv zeta.
  repeat (split_if; try reflexivity).
  all: destruct (section_state s) eqn:Hsec; cbv zeta.
  all: repeat (split_if; simpl; try assumption; try reflexivity).
  all: try split_buffer s; simpl; try assumption; reflexivity.
Qed.

Lemma loop_body_section (s : State) (raw : string) :
  section_state (body s raw) =
  match marker_of (PyStr.strip raw) with
  | Some TIMELINE_START => TIMELINE
  | Some ITINERARY_START => ITINERARY
  | Some TIMELINE_END | Some ITINERARY_END => NORMAL
  | None => section_state s
  end.
Proof.
  unfold loop_body.
  destruct (PyStr.is_empty (PyStr.strip raw)) eqn:E.
  - destruct (PyStr.strip raw); [reflexivity | discriminate E].
  - apply process_line_section.
Qed.

Lemma run_lines_cons (s : State) (raw : string) (rest : list string) :
  run s (raw :: rest) = run (body s raw) rest.
Proof. reflexivity. Qed.

Lemma run_lines_app (s : State) (l1 l2 : list string) :
  run s (l1 ++ l2) = run (run s l1) l2.
Proof. apply fold_left_app. Qed.

Lemma balanced_from_normal (lines : list string) :
  forall (s : State) (t i : nat),
    (t + i = 0 -> section_state s = NORMAL) ->
    balanced_from t i lines = true ->
    section_state (run s lines) = NORMAL.
Proof.
  induction lines as [|raw rest IH]; intros s t i Hinv Hbal.
  - simpl in Hbal. apply andb_true_iff in Hbal. destruct Hbal as [Ht Hi].
    apply Nat.eqb_eq in Ht, Hi. apply Hinv. lia.
  - rewrite run_lines_cons. simpl in Hbal.
    pose proof (loop_body_section s raw) as Hsec.
    destruct (marker_of (PyStr.strip raw)) as [[| | |]|].
    + apply (IH _ (S t) i); [lia | exact Hbal].
    + destruct t as [|t']; [discriminate Hbal|].
      apply (IH _ t' i); [intros _; exact Hsec | exact Hbal].
    + apply (IH _ t (S i)); [lia | exact Hbal].
    + destruct i as [|i']; [discriminate Hbal|].
      apply (IH _ t i'); [intros _; exact Hsec | exact Hbal].
    + apply (IH _ t i); [|exact Hbal]. rewrite Hsec. exact Hinv.
Qed.

End ParserFacts.

(** C5.  For every input whose section markers are balanced, the section
    state is NORMAL when the loop over the lines ends. *)
Theorem balanced_ends_normal :
  forall (destination : string) (fetch_image : string -> option string)
         (text_content : string),
    balanced text_content = true ->
    section_state (final_state destination fetch_image text_content) = NORMAL.
Proof.
  intros destination fetch_image text_content H.
  unfold final_state. apply (balanced_from_normal _ _ _ _ 0 0); [reflexivity | exact H].
Qed.

Lemma balanced_ends_normal_witness :
  balanced paris_input = true /\
  section_state (final_state "Paris" no_image paris_input) = NORMAL.
Proof.
  split; [vm_compute; reflexivity|].
  apply (balanced_ends_normal "Paris" no_image paris_input). vm_compute. reflexivity.
Defined.

(** ** Single lines *)

Open Scope list_scope.

Section LineFacts.

Variable destination : string.
Variable fetch_image : string -> option string.

Abbreviation step := (process_line destination fetch_image).

Lemma marker_of_none (line : string) :
  marker_of line = None ->
  PyStr.contains "TIMELINE_START" line = false /\
  PyStr.contains "TIMELINE_END" line = false /\
  PyStr.contains "ITINERARY_START" line = false /\
  PyStr.contains "ITINERARY_END" line = false.
Proof.
  unfold marker_of. repeat (split_if; try discriminate). intros _. repeat split.
Qed.

(** A line of the TIMELINE section that is no marker adds the rows of
    [timeline_row] to [timeline_data] and changes nothing else. *)
Lemma timeline_step (s : State) (line : string) :
  section_state s = TIMELINE ->
  marker_of line = None ->
  step s line =
  mkState (story s) (current_day s) (stop_buffer s)
          (timeline_data s ++ timeline_row line) TIMELINE.
Proof.
  intros Hsec Hm. destruct (marker_of_none line Hm) as (H1 & H2 & H3 & H4).
  unfold process_line, timeline_row. rewrite H1, H2, H3, H4, Hsec. cbv zeta.
  destruct (PyStr.contains ":" line) eqn:Hc.
  - destruct (split1_first ":" line Hc) as (a & b & Hs & _ & _).
    rewrite Hs. reflexivity.
  - rewrite app_nil_r. destruct s; simpl in *. now subst.
Qed.

(** A day line of the ITINERARY section appends its heading and rule
    and records the day; the stop buffer is passed on untouched. *)
Lemma day_step (s : State) (line : string) :
  section_state s = ITINERARY ->
  marker_of line = None ->
  PyStr.startswith "Day" line = true ->
  step s line =
  mkState (story s ++ [Paragraph line style_day; hr_rule])
          line (stop_buffer s) (timeline_data s) ITINERARY.
Proof.
  intros Hsec Hm Hday. destruct (marker_of_none line Hm) as (H1 & H2 & H3 & H4).
  unfold process_line. rewrite H1, H2, H3, H4, Hsec, Hday. reflexivity.
Qed.

End LineFacts.

(** C6.  In the TIMELINE section, a line that is no marker and contains
    a colon is cut at its first colon; the two parts, stripped, are
    appended as one row at the end of [timeline_data], and both are
    trimmed; nothing else changes.  A line without a colon leaves the
    state as it is.  The line [Day 2: Louvre and Seine walk] appends the
    row [Day 2], [Louvre and Seine walk]. *)
Theorem timeline_line_row :
  forall (destination : string) (fetch_image : string -> option string) (s : State),
    section_state s = TIMELINE ->
    (forall line : string,
        marker_of line = None ->
        (PyStr.contains ":" line = true ->
         exists a b : string,
           line = (a ++ ":" ++ b)%string /\
           PyStr.contains ":" a = false /\
           process_line destination fetch_image s line =
             mkState (story s) (current_day s) (stop_buffer s)
                     (timeline_data s ++ [[PyStr.strip a; PyStr.strip b]]) TIMELINE /\
           trimmed (PyStr.strip a) /\ trimmed (PyStr.strip b)) /\
        (PyStr.contains ":" line = false ->
         process_line destination fetch_image s line = s)) /\
    process_line destination fetch_image s "Day 2: Louvre and Seine walk" =
      mkState (story s) (current_day s) (stop_buffer s)
              (timeline_data s ++ [["Day 2"; "Louvre and Seine walk"]]) TIMELINE.
Proof.
  intros destination fetch_image s Hsec. split.
  - intros line Hm. rewrite (timeline_step _ _ s line Hsec Hm).
    unfold timeline_row. split; intros Hc; rewrite Hc.
    + destruct (split1_first ":" line Hc) as (a & b & Hs & Hl & Ha).
      exists a, b. rewrite Hs. simpl.
      repeat split; try assumption; apply strip_spec.
    + rewrite app_nil_r. destruct s; simpl in *. now subst.
  - rewrite (timeline_step _ _ s "Day 2: Louvre and Seine walk" Hsec eq_refl). reflexivity.
Qed.

Lemma timeline_line_row_witness :
  section_state
    (mkState [] "" [] [["Day"; "Summary"]; ["Day 1"; "Arrival"]] TIMELINE) = TIMELINE /\
  process_line "Paris" no_image
    (mkState [] "" [] [["Day"; "Summary"]; ["Day 1"; "Arrival"]] TIMELINE)
    "Day 2: Louvre and Seine walk" =
  mkState [] "" []
    [["Day"; "Summary"]; ["Day 1"; "Arrival"]; ["Day 2"; "Louvre and Seine walk"]]
    TIMELINE.
Proof.
  split; [reflexivity|].
  exact (proj2 (timeline_line_row "Paris" no_image
                  (mkState [] "" [] [["Day"; "Summary"]; ["Day 1"; "Arrival"]] TIMELINE)
                  eq_refl)).
Defined.

(** ** Section markers *)

(** C9 (counterexample).  In the TIMELINE section, the line
    [TIMELINE_END ITINERARY_START] contains [ITINERARY_START], yet it is
    handled by the test for [TIMELINE_END]: the timeline table is
    appended and the section state becomes NORMAL. *)
Lemma itinerary_start_shadowed :
  PyStr.contains "ITINERARY_START" "TIMELINE_END ITINERARY_START" = true /\
  process_line "Paris" no_image
    (mkState [] "" [] [["Day"; "Summary"]; ["Day 1"; "Arrival"]] TIMELINE)
    "TIMELINE_END ITINERARY_START" =
  mkState [Table [["Day"; "Summary"]; ["Day 1"; "Arrival"]]; PageBreak] "" []
          [["Day"; "Summary"]; ["Day 1"; "Arrival"]] NORMAL /\
  section_state
    (process_line "Paris" no_image
       (mkState [] "" [] [["Day"; "Summary"]; ["Day 1"; "Arrival"]] TIMELINE)
       "TIMELINE_END ITINERARY_START") <> ITINERARY.
Proof.
  split; [reflexivity|]. split; [reflexivity|]. vm_compute. discriminate.
Qed.

(** C9 (amended).  Whatever the current section state, a line containing
    [TIMELINE_START] appends the header [Trip at a Glance] and a spacer
    and sets the state to TIMELINE, and a line containing
    [ITINERARY_START] but neither [TIMELINE_START] nor [TIMELINE_END]
    appends the header [Detailed Visual Guide] and sets the state to
    ITINERARY; in both cases the stop buffer and the timeline rows are
    left as they are, no panel and no table is appended.  The result of
    a marker line does not depend on the section state it is read in. *)
Theorem section_markers_ignore_state :
  forall (destination : string) (fetch_image : string -> option string)
         (s : State) (line : string),
    (PyStr.contains "TIMELINE_START" line = true ->
     process_line destination fetch_image s line =
       mkState (story s ++ [Paragraph "Trip at a Glance" style_header; Spacer 1 10])
               (current_day s) (stop_buffer s) (timeline_data s) TIMELINE) /\
    (PyStr.contains "TIMELINE_START" line = false ->
     PyStr.contains "TIMELINE_END" line = false ->
     PyStr.contains "ITINERARY_START" line = true ->
     process_line destination fetch_image s line =
       mkState (story s ++ [Paragraph "Detailed Visual Guide" style_header])
               (current_day s) (stop_buffer s) (timeline_data s) ITINERARY) /\
    (marker_of line <> None ->
     forall sec : Section,
       process_line destination fetch_image
         (mkState (story s) (current_day s) (stop_buffer s) (timeline_data s) sec) line =
       process_line destination fetch_image s line).
Proof.
  intros destination fetch_image s line. split; [|split].
  - intros H. unfold process_line. rewrite H. reflexivity.
  - intros H1 H2 H3. unfold process_line. rewrite H1, H2, H3. reflexivity.
  - unfold marker_of, process_line. intros H sec.
    destruct (PyStr.contains "TIMELINE_START" line); [reflexivity|].
    destruct (PyStr.contains "TIMELINE_END" line); [reflexivity|].
    destruct (PyStr.contains "ITINERARY_START" line); [reflexivity|].
    destruct (PyStr.contains "ITINERARY_END" line); [reflexivity|].
    now elim H.
Qed.

Lemma section_markers_ignore_state_witness :
  process_line "Paris" no_image
    (mkState [] "" ["STOP: Eiffel Tower"] [["Day"; "Summary"]] ITINERARY)
    "TIMELINE_START" =
  mkState [Paragraph "Trip at a Glance" style_header; Spacer 1 10] ""
          ["STOP: Eiffel Tower"] [["Day"; "Summary"]] TIMELINE /\
  process_line "Paris" no_image
    (mkState [] "" [] [["Day"; "Summary"]; ["Day 1"; "Arrival"]] TIMELINE)
    "ITINERARY_START" =
  mkState [Paragraph "Detailed Visual Guide" style_header] "" []
          [["Day"; "Summary"]; ["Day 1"; "Arrival"]] ITINERARY.
Proof.
  split.
  - exact (proj1 (section_markers_ignore_state "Paris" no_image
                    (mkState [] "" ["STOP: Eiffel Tower"] [["Day"; "Summary"]] ITINERARY)
                    "TIMELINE_START") eq_refl).
  - exact (proj1 (proj2 (section_markers_ignore_state "Paris" no_image
                    (mkState [] "" [] [["Day"; "Summary"]; ["Day 1"; "Arrival"]] TIMELINE)
                    "ITINERARY_START")) eq_refl eq_refl eq_refl).
Defined.

(** ** What a line appends to the story *)

Section StoryFacts.

Variable destination : string.
Variable fetch_image : string -> option string.

Abbreviation step' := (process_line destination fetch_image).
Abbreviation panel_of :=
  (fun lines : list string =>
     KeepTogether (snd (fold_left stop_line lines ("", [])))
                  (image_cell destination fetch_image
                              (fst (fold_left stop_line lines ("", []))))).

Lemma create_stop_table_eq (st : list Flowable) (lines : list string) :
  create_stop_table destination fetch_image st lines =
  st ++ [panel_of lines; Spacer 1 15].
Proof.
  unfold create_stop_table, image_cell.
  destruct (fold_left stop_line lines ("", [])) as [place_name details_text].
  reflexivity.
Qed.

Lemma stop_line_grows (acc : string * list Flowable) (line : string) :
  snd (stop_line acc line) <> [].
Proof.
  destruct acc as [place_name details_text]. unfold stop_line.
  repeat split_if; simpl; intros H; apply app_eq_nil in H; destruct H as [_ H];
    discriminate H.
Qed.

Lemma fold_stop_line_keeps (lines : list string) :
  forall acc : string * list Flowable,
    snd acc <> [] -> snd (fold_left stop_line lines acc) <> [].
Proof.
  induction lines as [|l rest IH]; intros acc H; simpl; [exact H|].
  apply IH. apply stop_line_grows.
Qed.

(** The text column of a panel built from a non-empty buffer is not
    empty. *)
Lemma details_nonempty (lines : list string) :
  lines <> [] -> snd (fold_left stop_line lines ("", [])) <> [].
Proof.
  destruct lines as [|l rest]; [congruence|]. intros _.
  change (fold_left stop_line (l :: rest) ("", []))
    with (fold_left stop_line rest (stop_line ("", []) l)).
  apply fold_stop_line_keeps, stop_line_grows.
Qed.

Ltac emit_blocks :=
  eexists; split; [reflexivity|]; split; [now left | intros _; reflexivity].

Ltac emit_nothing :=
  exists []; rewrite app_nil_r; split; [reflexivity|];
  split; [now left | intros _; reflexivity].

Ltac emit_panel :=
  simpl story; rewrite create_stop_table_eq; eexists; split; [reflexivity|];
  split; [right; split; [discriminate | reflexivity] | intros _; reflexivity].

(** Every line appends to the story, and what it appends is either free
    of panels or one panel, built from a non-empty buffer, with its
    spacer.  A table is appended by a [TIMELINE_END] line only. *)
Lemma process_line_story (s : State) (line : string) :
  exists extra,
    story (step' s line) = story s ++ extra /\
    (forallb (fun b => negb (is_panel b)) extra = true \/
     (stop_buffer s <> [] /\ extra = [panel_of (stop_buffer s); Spacer 1 15])) /\
    (marker_of line <> Some TIMELINE_END ->
     forallb (fun b => negb (is_table b)) extra = true).
Proof.
  unfold process_line, marker_of.
  destruct (PyStr.contains "TIMELINE_START" line); [emit_blocks|].
  destruct (PyStr.contains "TIMELINE_END" line).
  { eexists. split; [reflexivity|]. split; [now left | intros H; now elim H]. }
  destruct (PyStr.contains "ITINERARY_START" line); [emit_blocks|].
  destruct (PyStr.contains "ITINERARY_END" line).
  { destruct (stop_buffer s) eqn:Hb; [emit_nothing | emit_panel]. }
  destruct (section_state s); cbv zeta.
  - repeat split_if; emit_blocks.
  - repeat split_if; emit_nothing.
  - destruct (PyStr.startswith "Day" line); [emit_blocks|].
    destruct (PyStr.startswith "STOP:" line);
      destruct (stop_buffer s) eqn:Hb; first [emit_nothing | emit_panel].
Qed.

End StoryFacts.

Lemma stop_line_not_day (line : string) :
  PyStr.startswith "STOP:" line = true -> PyStr.startswith "Day" line = false.
Proof.
  unfold PyStr.startswith. intros H. rewrite (prefix_drop _ _ H). reflexivity.
Qed.

Lemma end_marker_step (destination : string) (fetch_image : string -> option string)
  (s : State) (line : string) :
  marker_of line = Some ITINERARY_END ->
  process_line destination fetch_image s line =
  mkState (match stop_buffer s with
           | [] => story s
           | _ :: _ => create_stop_table destination fetch_image (story s) (stop_buffer s)
           end)
          (current_day s) (stop_buffer s) (timeline_data s) NORMAL.
Proof.
  unfold marker_of, process_line.
  repeat (split_if; try discriminate); intros _; reflexivity.
Qed.

(** ** Flushing an empty buffer *)

(** C8.  With an empty stop buffer no line appends a panel.  A line
    taken for [ITINERARY_END] and, in the itinerary, a [STOP:] line
    leave the story as it is; a day line appends its heading and rule
    and nothing else; the end of the stream appends nothing.  Two end
    markers in a row leave the story as it is. *)
Theorem empty_buffer_flush_emits_nothing :
  forall (destination : string) (fetch_image : string -> option string) (s : State),
    stop_buffer s = [] ->
    (forall line : string,
        exists extra,
          story (process_line destination fetch_image s line) = story s ++ extra /\
          forallb (fun b => negb (is_panel b)) extra = true) /\
    (forall line : string,
        marker_of line = Some ITINERARY_END ->
        story (process_line destination fetch_image s line) = story s /\
        stop_buffer (process_line destination fetch_image s line) = []) /\
    (forall line : string,
        section_state s = ITINERARY ->
        marker_of line = None ->
        PyStr.startswith "STOP:" line = true ->
        story (process_line destination fetch_image s line) = story s) /\
    (forall line : string,
        section_state s = ITINERARY ->
        marker_of line = None ->
        PyStr.startswith "Day" line = true ->
        story (process_line destination fetch_image s line) =
          story s ++ [Paragraph line style_day; hr_rule] /\
        stop_buffer (process_line destination fetch_image s line) = []) /\
    (forall line1 line2 : string,
        marker_of line1 = Some ITINERARY_END ->
        marker_of line2 = Some ITINERARY_END ->
        story (process_line destination fetch_image
                 (process_line destination fetch_image s line1) line2) = story s) /\
    story (run_lines destination fetch_image s []) = story s.
Proof.
  intros destination fetch_image s Hb.
  split; [|split; [|split; [|split; [|split]]]].
  - intros line.
    destruct (process_line_story destination fetch_image s line)
      as (extra & Hst & [Hfree | [Hne _]] & _); [|congruence].
    exists extra. now split.
  - intros line Hm. rewrite (end_marker_step _ _ _ _ Hm), Hb. now split.
  - intros line Hsec Hm Hstop.
    destruct (marker_of_none line Hm) as (H1 & H2 & H3 & H4).
    unfold process_line.
    rewrite H1, H2, H3, H4, Hsec, (stop_line_not_day line Hstop), Hstop, Hb.
    reflexivity.
  - intros line Hsec Hm Hday.
    rewrite (day_step _ _ _ _ Hsec Hm Hday). simpl. now split.
  - intros line1 line2 Hm1 Hm2.
    rewrite (end_marker_step _ _ _ _ Hm2), (end_marker_step _ _ _ _ Hm1).
    simpl. rewrite Hb. reflexivity.
  - reflexivity.
Qed.

Lemma empty_buffer_flush_emits_nothing_witness :
  stop_buffer
    (mkState [Paragraph "Detailed Visual Guide" style_header] "" []
             [["Day"; "Summary"]] ITINERARY) = [] /\
  story (process_line "Paris" no_image
           (process_line "Paris" no_image
              (mkState [Paragraph "Detailed Visual Guide" style_header] "" []
                       [["Day"; "Summary"]] ITINERARY)
              "ITINERARY_END")
           "ITINERARY_END") =
  [Paragraph "Detailed Visual Guide" style_header].
Proof.
  split; [reflexivity|].
  exact (proj1 (proj2 (proj2 (proj2 (proj2
           (empty_buffer_flush_emits_nothing "Paris" no_image
              (mkState [Paragraph "Detailed Visual Guide" style_header] "" []
                       [["Day"; "Summary"]] ITINERARY)
              eq_refl)))))
           "ITINERARY_END" "ITINERARY_END" eq_refl eq_refl).
Defined.

(** ** Image availability *)

Ltac fields := cbn [story current_day stop_buffer timeline_data section_state].

Lemma image_cell_no_image (destination place_name : string) :
  image_cell destination no_image place_name = [].
Proof. reflexivity. Qed.

Lemma create_stop_table_erase (destination : string)
  (fetch_image : string -> option string) (st : list Flowable) (lines : list string) :
  map erase_image (create_stop_table destination fetch_image st lines) =
  create_stop_table destination no_image (map erase_image st) lines.
Proof.
  rewrite !create_stop_table_eq, map_app. reflexivity.
Qed.

(** Running a line with any resolver and then emptying the image cells
    is running it without images on the emptied state. *)
Lemma erase_step (destination : string) (fetch_image : string -> option string)
  (s : State) (line : string) :
  erase_state (process_line destination fetch_image s line) =
  process_line destination no_image (erase_state s) line.
Proof.
  destruct s as [st day buf rows sec].
  unfold process_line, erase_state. fields.
  destruct (PyStr.contains "TIMELINE_START" line); [fields; now rewrite map_app|].
  destruct (PyStr.contains "TIMELINE_END" line); [fields; now rewrite map_app|].
  destruct (PyStr.contains "ITINERARY_START" line); [fields; now rewrite map_app|].
  destruct (PyStr.contains "ITINERARY_END" line).
  { destruct buf; fields; [reflexivity | now rewrite create_stop_table_erase]. }
  destruct sec; cbv zeta.
  - repeat split_if; fields; now rewrite map_app.
  - repeat split_if; reflexivity.
  - destruct (PyStr.startswith "Day" line); [fields; now rewrite map_app|].
    destruct (PyStr.startswith "STOP:" line); destruct buf; fields;
      rewrite ?create_stop_table_erase; reflexivity.
Qed.

Lemma erase_run (destination : string) (fetch_image : string -> option string)
  (lines : list string) :
  forall s : State,
    erase_state (run_lines destination fetch_image s lines) =
    run_lines destination no_image (erase_state s) lines.
Proof.
  induction lines as [|raw rest IH]; intros s; [reflexivity|].
  rewrite !run_lines_cons, IH. f_equal.
  unfold loop_body. destruct (PyStr.is_empty (PyStr.strip raw)); [reflexivity|].
  apply erase_step.
Qed.

Lemma panel_free_text_only (extra : list Flowable) :
  forallb (fun b => negb (is_panel b)) extra = true ->
  Forall text_only_panel extra.
Proof.
  rewrite forallb_forall, Forall_forall. intros H b Hin.
  specialize (H b Hin). destruct b; simpl in *; [trivial .. | discriminate H].
Qed.

Lemma text_only_step (destination : string) (s : State) (line : string) :
  Forall text_only_panel (story s) ->
  Forall text_only_panel (story (process_line destination no_image s line)).
Proof.
  intros H.
  destruct (process_line_story destination no_image s line)
    as (extra & -> & [Hfree | [Hne ->]] & _); apply Forall_app; split; try exact H.
  - now apply panel_free_text_only.
  - repeat constructor. now apply details_nonempty.
Qed.

Lemma text_only_run (destination : string) (lines : list string) :
  forall s : State,
    Forall text_only_panel (story s) ->
    Forall text_only_panel (story (run_lines destination no_image s lines)).
Proof.
  induction lines as [|raw rest IH]; intros s H; [exact H|].
  rewrite run_lines_cons. apply IH. unfold loop_body.
  destruct (PyStr.is_empty (PyStr.strip raw)); [exact H | now apply text_only_step].
Qed.

(** C7.  When the resolver returns no image for any query, every stop
    panel of the story has a non-empty text column and an empty image
    column; and the story built with any resolver is, once its image
    cells are emptied, the story built without images: the same blocks in
    the same number and order, differing in the image cells only. *)
Theorem no_image_same_blocks :
  forall (destination : string) (fetch_image : string -> option string)
         (text_content : string),
    Forall text_only_panel (generate_pdf destination no_image text_content) /\
    map erase_image (generate_pdf destination fetch_image text_content) =
      generate_pdf destination no_image text_content /\
    length (generate_pdf destination fetch_image text_content) =
      length (generate_pdf destination no_image text_content).
Proof.
  intros destination fetch_image text_content.
  assert (E : map erase_image (generate_pdf destination fetch_image text_content) =
              generate_pdf destination no_image text_content).
  { unfold generate_pdf, final_state.
    change (map erase_image
              (story (run_lines destination fetch_image initial_state
                        (PyStr.split "010" text_content))))
      with (story (erase_state (run_lines destination fetch_image initial_state
                                  (PyStr.split "010" text_content)))).
    rewrite erase_run. reflexivity. }
  split; [|split].
  - apply text_only_run. constructor.
  - exact E.
  - rewrite <- E. symmetry. apply length_map.
Qed.

(** ** Timeline rows across sections *)

Section TimelineFacts.

Variable destination : string.
Variable fetch_image : string -> option string.

Abbreviation lstep := (loop_body destination fetch_image).
Abbreviation lrun := (run_lines destination fetch_image).

Lemma loop_body_marker (s : State) (raw : string) (m : Marker) :
  marker_of (PyStr.strip raw) = Some m ->
  lstep s raw = process_line destination fetch_image s (PyStr.strip raw).
Proof.
  intros H. unfold loop_body.
  destruct (PyStr.strip raw); [discriminate H | reflexivity].
Qed.

Lemma timeline_start_step (s : State) (raw : string) :
  marker_of (PyStr.strip raw) = Some TIMELINE_START ->
  lstep s raw =
  mkState (story s ++ [Paragraph "Trip at a Glance" style_header; Spacer 1 10])
          (current_day s) (stop_buffer s) (timeline_data s) TIMELINE.
Proof.
  intros H. rewrite (loop_body_marker _ _ _ H). revert H.
  unfold marker_of, process_line.
  destruct (PyStr.contains "TIMELINE_START" (PyStr.strip raw)); [reflexivity|].
  repeat (split_if; try discriminate).
Qed.

Lemma timeline_end_step (s : State) (raw : string) :
  marker_of (PyStr.strip raw) = Some TIMELINE_END ->
  lstep s raw =
  mkState (story s ++ [Table (timeline_data s); PageBreak])
          (current_day s) (stop_buffer s) (timeline_data s) NORMAL.
Proof.
  intros H. rewrite (loop_body_marker _ _ _ H). revert H.
  unfold marker_of, process_line.
  destruct (PyStr.contains "TIMELINE_START" (PyStr.strip raw)); [discriminate|].
  destruct (PyStr.contains "TIMELINE_END" (PyStr.strip raw)); [reflexivity|].
  repeat (split_if; try discriminate).
Qed.

(** A block of lines without markers, read in the TIMELINE section, adds
    its rows to [timeline_data] and changes nothing else. *)
Lemma timeline_block (sec : list string) :
  forall s : State,
    section_state s = TIMELINE ->
    forallb no_marker sec = true ->
    lrun s sec =
    mkState (story s) (current_day s) (stop_buffer s)
            (timeline_data s ++ timeline_rows sec) TIMELINE.
Proof.
  induction sec as [|raw rest IH]; intros s Hsec Hall.
  - simpl. rewrite app_nil_r. destruct s; simpl in *. now subst.
  - simpl in Hall. apply andb_true_iff in Hall. destruct Hall as [Hraw Hrest].
    unfold no_marker in Hraw.
    destruct (marker_of (PyStr.strip raw)) eqn:Hm; [discriminate Hraw|].
    rewrite run_lines_cons.
    assert (E : lstep s raw =
                mkState (story s) (current_day s) (stop_buffer s)
                        (timeline_data s ++ timeline_row (PyStr.strip raw)) TIMELINE).
    { unfold loop_body. destruct (PyStr.is_empty (PyStr.strip raw)) eqn:Hemp.
      - destruct (PyStr.strip raw); [|discriminate Hemp].
        simpl. rewrite app_nil_r. destruct s; simpl in *. now subst.
      - now apply timeline_step. }
    rewrite E, IH; [|reflexivity | exact Hrest].
    simpl. rewrite <- app_assoc. reflexivity.
Qed.

Lemma process_line_keeps_rows (s : State) (line : string) :
  section_state s <> TIMELINE ->
  timeline_data (process_line destination fetch_image s line) = timeline_data s.
Proof.
  intros Hsec. destruct s as [st day buf rows sec]. unfold process_line.
  cbn [story current_day stop_buffer timeline_data section_state] in *.
  destruct (PyStr.contains "TIMELINE_START" line); [reflexivity|].
  destruct (PyStr.contains "TIMELINE_END" line); [reflexivity|].
  destruct (PyStr.contains "ITINERARY_START" line); [reflexivity|].
  destruct (PyStr.contains "ITINERARY_END" line); [reflexivity|].
  destruct sec; [| now elim Hsec |]; repeat split_if; reflexivity.
Qed.

(** Lines that are taken for no TIMELINE marker, read outside the
    TIMELINE section, leave [timeline_data] as it is, stay outside the
    TIMELINE section and append no table. *)
Lemma outside_block (ls : list string) :
  forall s : State,
    section_state s <> TIMELINE ->
    forallb no_timeline_marker ls = true ->
    timeline_data (lrun s ls) = timeline_data s /\
    section_state (lrun s ls) <> TIMELINE /\
    exists extra,
      story (lrun s ls) = story s ++ extra /\
      forallb (fun b => negb (is_table b)) extra = true.
Proof.
  induction ls as [|raw rest IH]; intros s Hsec Hall.
  - simpl. repeat split; [exact Hsec|]. exists []. now rewrite app_nil_r.
  - simpl in Hall. apply andb_true_iff in Hall. destruct Hall as [Hraw Hrest].
    rewrite run_lines_cons. unfold no_timeline_marker in Hraw.
    assert (H1 : timeline_data (lstep s raw) = timeline_data s).
    { unfold loop_body. destruct (PyStr.is_empty (PyStr.strip raw)); [reflexivity|].
      now apply process_line_keeps_rows. }
    assert (H2 : section_state (lstep s raw) <> TIMELINE).
    { rewrite loop_body_section.
      destruct (marker_of (PyStr.strip raw)) as [[| | |]|];
        try discriminate; exact Hsec. }
    assert (H3 : exists extra, story (lstep s raw) = story s ++ extra /\
                   forallb (fun b => negb (is_table b)) extra = true).
    { unfold loop_body. destruct (PyStr.is_empty (PyStr.strip raw)).
      - exists []. now rewrite app_nil_r.
      - destruct (process_line_story destination fetch_image s (PyStr.strip raw))
          as (extra & Hst & _ & Htab).
        exists extra. split; [exact Hst|]. apply Htab.
        destruct (marker_of (PyStr.strip raw)) as [[| | |]|]; congruence. }
    destruct (IH _ H2 Hrest) as (I1 & I2 & extra2 & I3 & I4).
    destruct H3 as (extra1 & H3 & H4).
    split; [congruence|]. split; [exact I2|].
    exists (extra1 ++ extra2). split.
    + rewrite I3, H3, app_assoc. reflexivity.
    + rewrite forallb_app, H4, I4. reflexivity.
Qed.

Lemma run_story_extends (ls : list string) :
  forall s : State, exists extra, story (lrun s ls) = story s ++ extra.
Proof.
  induction ls as [|raw rest IH]; intros s.
  - exists []. simpl. now rewrite app_nil_r.
  - rewrite run_lines_cons. destruct (IH (lstep s raw)) as (e2 & H2).
    assert (H1 : exists e1, story (lstep s raw) = story s ++ e1).
    { unfold loop_body. destruct (PyStr.is_empty (PyStr.strip raw)).
      - exists []. now rewrite app_nil_r.
      - destruct (process_line_story destination fetch_image s (PyStr.strip raw))
          as (e1 & Hst & _). now exists e1. }
    destruct H1 as (e1 & H1). exists (e1 ++ e2).
    rewrite H2, H1, app_assoc. reflexivity.
Qed.

End TimelineFacts.

(** C10.  [timeline_data] is never reset.  For an input with two
    TIMELINE sections, the table appended at the second [TIMELINE_END]
    holds the header row, then the rows of the first section, then the
    rows of the second: the story has the table of the first section,
    and later a table that repeats the rows of the first section before
    those of the second.  No other table comes before or between. *)
Theorem second_table_repeats_rows :
  forall (destination : string) (fetch_image : string -> option string)
         (text_content : string)
         (pre : list string) (ts1 : string) (sec1 : list string) (te1 : string)
         (mid : list string) (ts2 : string) (sec2 : list string) (te2 : string)
         (post : list string),
    PyStr.split "010" text_content =
      pre ++ ts1 :: sec1 ++ te1 :: mid ++ ts2 :: sec2 ++ te2 :: post ->
    forallb no_timeline_marker pre = true ->
    marker_of (PyStr.strip ts1) = Some TIMELINE_START ->
    forallb no_marker sec1 = true ->
    marker_of (PyStr.strip te1) = Some TIMELINE_END ->
    forallb no_timeline_marker mid = true ->
    marker_of (PyStr.strip ts2) = Some TIMELINE_START ->
    forallb no_marker sec2 = true ->
    marker_of (PyStr.strip te2) = Some TIMELINE_END ->
    exists before between after : list Flowable,
      generate_pdf destination fetch_image text_content =
        before ++
        Table (["Day"; "Summary"] :: timeline_rows sec1) ::
        between ++
        Table (["Day"; "Summary"] :: timeline_rows sec1 ++ timeline_rows sec2) ::
        after /\
      forallb (fun b => negb (is_table b)) before = true /\
      forallb (fun b => negb (is_table b)) between = true.
Proof.
  intros destination fetch_image text_content
         pre ts1 sec1 te1 mid ts2 sec2 te2 post
         Hsplit Hpre Hts1 Hsec1 Hte1 Hmid Hts2 Hsec2 Hte2.
  unfold generate_pdf, final_state. rewrite Hsplit.
  rewrite run_lines_app, run_lines_cons.
  destruct (outside_block destination fetch_image pre initial_state)
    as (R1 & N1 & e1 & S1 & T1); [discriminate | exact Hpre |].
  set (s1 := run_lines destination fetch_image initial_state pre) in *.
  rewrite (timeline_start_step _ _ s1 ts1 Hts1).
  rewrite run_lines_app, run_lines_cons.
  rewrite (timeline_block destination fetch_image sec1); [| reflexivity | exact Hsec1].
  rewrite (timeline_end_step _ _ _ te1 Hte1).
  cbn [story current_day stop_buffer timeline_data section_state].
  rewrite run_lines_app, run_lines_cons.
  match goal with
  | |- context [run_lines destination fetch_image ?s mid] =>
    destruct (outside_block destination fetch_image mid s)
      as (R5 & N5 & e5 & S5 & T5); [discriminate | exact Hmid |];
    set (s5 := run_lines destination fetch_image s mid) in *
  end.
  rewrite (timeline_start_step _ _ s5 ts2 Hts2).
  rewrite run_lines_app, run_lines_cons.
  rewrite (timeline_block destination fetch_image sec2); [| reflexivity | exact Hsec2].
  rewrite (timeline_end_step _ _ _ te2 Hte2).
  cbn [story current_day stop_buffer timeline_data section_state] in *.
  match goal with
  | |- context [run_lines destination fetch_image ?s post] =>
    destruct (run_story_extends destination fetch_image post s) as (e9 & S9)
  end.
  rewrite S9. cbn [story]. rewrite S5, R5, S1, R1. simpl story.
  exists (e1 ++ [Paragraph "Trip at a Glance" style_header; Spacer 1 10]),
         (PageBreak :: e5 ++ [Paragraph "Trip at a Glance" style_header; Spacer 1 10]),
         (PageBreak :: e9).
  split; [|split].
  - simpl. repeat rewrite <- app_assoc. simpl. repeat rewrite <- app_assoc.
    reflexivity.
  - rewrite forallb_app, T1. reflexivity.
  - simpl. rewrite forallb_app, T5. reflexivity.
Qed.

Lemma second_table_repeats_rows_witness :
  exists before between after : list Flowable,
    generate_pdf "Paris" no_image two_timelines_input =
      before ++
      Table [["Day"; "Summary"]; ["Day 1"; "Arrival"]] ::
      between ++
      Table [["Day"; "Summary"]; ["Day 1"; "Arrival"]; ["Day 2"; "Louvre"]] ::
      after /\
    forallb (fun b => negb (is_table b)) before = true /\
    forallb (fun b => negb (is_table b)) between = true.
Proof.
  exact (second_table_repeats_rows "Paris" no_image two_timelines_input
           ["TITLE: Paris Trip"] "TIMELINE_START" ["Day 1: Arrival"] "TIMELINE_END"
           ["OVERVIEW: Great city"] "TIMELINE_START" ["Day 2: Louvre"] "TIMELINE_END"
           ["Bring a coat"]
           eq_refl eq_refl eq_refl eq_refl eq_refl eq_refl eq_refl eq_refl eq_refl).
Defined.

(** ** Blank lines and surrounding whitespace *)

Lemma lstrip_with_fixed (tbl : list string) (t : string) :
  PyStr.drop_one tbl t = None -> PyStr.lstrip_with tbl t = t.
Proof.
  intros H. unfold PyStr.lstrip_with.
  destruct (String.length t); simpl; [reflexivity | now rewrite H].
Qed.

Lemma strip_trimmed (t : string) : trimmed t -> PyStr.strip t = t.
Proof.
  intros [Hl Hr]. unfold PyStr.strip, PyStr.rstrip, PyStr.lstrip.
  rewrite (lstrip_with_fixed _ _ Hl), (lstrip_with_fixed _ _ Hr).
  apply rev_involutive.
Qed.

Lemma strip_idempotent (x : string) : PyStr.strip (PyStr.strip x) = PyStr.strip x.
Proof. apply strip_trimmed, strip_spec. Qed.

Lemma loop_body_strip (destination : string) (fetch_image : string -> option string)
  (s : State) (raw : string) :
  loop_body destination fetch_image s (PyStr.strip raw) =
  loop_body destination fetch_image s raw.
Proof. unfold loop_body. now rewrite strip_idempotent. Qed.

(** X1.  Lines that strip to the empty string are skipped: removing
    them from the input, wherever they stand, gives the same final
    state, hence the same story. *)
Theorem blank_lines_are_skipped :
  forall (destination : string) (fetch_image : string -> option string)
         (lines : list string) (s : State),
    run_lines destination fetch_image s
      (filter (fun raw => negb (is_blank raw)) lines) =
    run_lines destination fetch_image s lines.
Proof.
  intros destination fetch_image lines.
  induction lines as [|raw rest IH]; intros s; [reflexivity|].
  rewrite run_lines_cons. simpl filter. unfold is_blank at 1.
  destruct (PyStr.is_empty (PyStr.strip raw)) eqn:E; simpl negb; cbv iota.
  - rewrite IH. unfold loop_body. now rewrite E.
  - rewrite run_lines_cons. apply IH.
Qed.

(** X2.  Whitespace around a line does not matter: stripping every line
    beforehand gives the same final state. *)
Theorem surrounding_whitespace_ignored :
  forall (destination : string) (fetch_image : string -> option string)
         (lines : list string) (s : State),
    run_lines destination fetch_image s (map PyStr.strip lines) =
    run_lines destination fetch_image s lines.
Proof.
  intros destination fetch_image lines.
  induction lines as [|raw rest IH]; intros s; [reflexivity|].
  simpl map. rewrite !run_lines_cons, loop_body_strip. apply IH.
Qed.

(** ** Timeline tables *)

Section TableFacts.

Variable destination : string.
Variable fetch_image : string -> option string.

Abbreviation tstep := (process_line destination fetch_image).
Abbreviation tbody := (loop_body destination fetch_image).
Abbreviation trun := (run_lines destination fetch_image).

(** What one line does to the story and to the timeline rows together:
    rows are only added, each of two cells, and the story receives
    either no table or the table of the rows held at that moment. *)
Lemma process_line_tables (s : State) (line : string) :
  exists extra added,
    story (tstep s line) = story s ++ extra /\
    timeline_data (tstep s line) = timeline_data s ++ added /\
    Forall (fun row => length row = 2) added /\
    (forallb (fun b => negb (is_table b)) extra = true \/
     (extra = [Table (timeline_data s); PageBreak] /\ added = [])).
Proof.
  destruct (PyStr.contains "TIMELINE_END" line &&
            negb (PyStr.contains "TIMELINE_START" line)) eqn:Hte.
  - apply andb_true_iff in Hte. destruct Hte as [H2 H1].
    apply negb_true_iff in H1. unfold process_line. rewrite H1, H2.
    exists [Table (timeline_data s); PageBreak], []. rewrite app_nil_r.
    split; [reflexivity|]. split; [reflexivity|]. split; [constructor | now right].
  - destruct (process_line_story destination fetch_image s line)
      as (extra & Hst & _ & Htab).
    assert (Hfree : forallb (fun b => negb (is_table b)) extra = true).
    { apply Htab. unfold marker_of.
      destruct (PyStr.contains "TIMELINE_START" line); [discriminate|].
      destruct (PyStr.contains "TIMELINE_END" line); [discriminate Hte|].
      repeat (split_if; try discriminate). }
    exists extra. clear Htab.
    destruct s as [st day buf rows sec]. unfold process_line in *.
    cbn [story current_day stop_buffer timeline_data section_state] in *.
    destruct (PyStr.contains "TIMELINE_START" line);
      [exists []; rewrite app_nil_r; repeat split; auto|].
    destruct (PyStr.contains "TIMELINE_END" line); [discriminate Hte|].
    destruct (PyStr.contains "ITINERARY_START" line);
      [exists []; rewrite app_nil_r; repeat split; auto|].
    destruct (PyStr.contains "ITINERARY_END" line);
      [exists []; rewrite app_nil_r; repeat split; auto|].
    destruct sec; cbv zeta in *.
    + exists []. rewrite app_nil_r. repeat split; auto.
      repeat split_if; reflexivity.
    + destruct (PyStr.contains ":" line);
        [|exists []; rewrite app_nil_r; repeat split; auto].
      destruct (Nat.eqb (length (PyStr.split1 ":" line)) 2);
        [|exists []; rewrite app_nil_r; repeat split; auto].
      eexists. split; [exact Hst|]. split; [reflexivity|].
      split; [repeat constructor | now left].
    + exists []. rewrite app_nil_r. repeat split; auto.
      repeat split_if; reflexivity.
Qed.

Lemma loop_body_tables (s : State) (raw : string) :
  exists extra added,
    story (tbody s raw) = story s ++ extra /\
    timeline_data (tbody s raw) = timeline_data s ++ added /\
    Forall (fun row => length row = 2) added /\
    (forallb (fun b => negb (is_table b)) extra = true \/
     (extra = [Table (timeline_data s); PageBreak] /\ added = [])).
Proof.
  unfold loop_body. destruct (PyStr.is_empty (PyStr.strip raw)).
  - exists [], []. rewrite !app_nil_r. repeat split; auto.
  - apply process_line_tables.
Qed.

Lemma table_free_not_in (extra : list Flowable) (d : list (list string)) :
  forallb (fun b => negb (is_table b)) extra = true -> ~ In (Table d) extra.
Proof.
  intros H Hin. rewrite forallb_forall in H. specialize (H _ Hin). discriminate H.
Qed.

Lemma rows_ok_app (data added : list (list string)) :
  rows_ok data -> Forall (fun row => length row = 2) added -> rows_ok (data ++ added).
Proof.
  intros (rows & -> & Hrows) Hadd. exists (rows ++ added). split; [reflexivity|].
  apply Forall_app. now split.
Qed.

Lemma tables_inv_body (s : State) (raw : string) :
  tables_inv s -> tables_inv (tbody s raw).
Proof.
  intros (Hrows & Hwf & Hpre & Hord).
  destruct (loop_body_tables s raw) as (extra & added & Hst & Htl & Hadd & Hcase).
  unfold tables_inv. rewrite Hst, Htl.
  split; [now apply rows_ok_app|]. split; [|split].
  - apply Forall_app. split; [exact Hwf|].
    destruct Hcase as [Hfree | [-> _]].
    + rewrite Forall_forall. intros b Hb. destruct b; simpl; trivial.
      now elim (table_free_not_in _ _ Hfree Hb).
    + repeat constructor. exact Hrows.
  - intros d Hin. apply in_app_or in Hin. destruct Hin as [Hin | Hin].
    + destruct (Hpre d Hin) as (r & Hr). exists (r ++ added).
      rewrite Hr, app_assoc. reflexivity.
    + destruct Hcase as [Hfree | [-> ->]].
      * now elim (table_free_not_in _ _ Hfree Hin).
      * destruct Hin as [Hin | [Hin | []]]; [|discriminate Hin].
        injection Hin as <-. exists []. reflexivity.
  - intros i j d1 d2 Hij Hi Hj.
    destruct (Nat.lt_ge_cases j (length (story s))) as [Hlt | Hge].
    + rewrite nth_error_app1 in Hi by lia. rewrite nth_error_app1 in Hj by lia.
      exact (Hord i j d1 d2 Hij Hi Hj).
    + rewrite nth_error_app2 in Hj by exact Hge.
      destruct Hcase as [Hfree | [-> ->]].
      * apply nth_error_In in Hj. now elim (table_free_not_in _ _ Hfree Hj).
      * destruct (j - length (story s)) as [|[|k]] eqn:Hk; simpl in Hj;
          [| discriminate Hj | destruct k; discriminate Hj].
        injection Hj as <-.
        assert (Hi' : i < length (story s)) by lia.
        rewrite nth_error_app1 in Hi by exact Hi'.
        apply nth_error_In in Hi. exact (Hpre d1 Hi).
Qed.

Lemma tables_inv_run (lines : list string) :
  forall s : State, tables_inv s -> tables_inv (trun s lines).
Proof.
  induction lines as [|raw rest IH]; intros s H; [exact H|].
  rewrite run_lines_cons. apply IH, tables_inv_body, H.
Qed.

Lemma tables_inv_initial : tables_inv initial_state.
Proof.
  split; [exists []; split; [reflexivity | constructor]|].
  split; [constructor|]. split.
  - intros d [].
  - intros i j d1 d2 _ Hi. destruct i; discriminate Hi.
Qed.

End TableFacts.

(** X3.  Every timeline table of the story starts with the header row
    [Day], [Summary], and each of its other rows has exactly two
    cells. *)
Theorem timeline_tables_well_formed :
  forall (destination : string) (fetch_image : string -> option string)
         (text_content : string),
    Forall table_ok (generate_pdf destination fetch_image text_content).
Proof.
  intros destination fetch_image text_content.
  apply (tables_inv_run destination fetch_image _ initial_state tables_inv_initial).
Qed.

(** X4.  Timeline tables only grow: when the story holds a table at one
    position and another table at a later position, the later table
    consists of the rows of the earlier one followed by further rows. *)
Theorem later_table_extends_earlier :
  forall (destination : string) (fetch_image : string -> option string)
         (text_content : string) (i j : nat) (d1 d2 : list (list string)),
    i < j ->
    nth_error (generate_pdf destination fetch_image text_content) i = Some (Table d1) ->
    nth_error (generate_pdf destination fetch_image text_content) j = Some (Table d2) ->
    exists r, d2 = d1 ++ r.
Proof.
  intros destination fetch_image text_content.
  apply (tables_inv_run destination fetch_image _ initial_state tables_inv_initial).
Qed.

Lemma later_table_extends_earlier_witness :
  exists r,
    [["Day"; "Summary"]; ["Day 1"; "Arrival"]; ["Day 2"; "Louvre"]] =
    [["Day"; "Summary"]; ["Day 1"; "Arrival"]] ++ r.
Proof.
  exact (later_table_extends_earlier "Paris" no_image two_timelines_input 3 8
           [["Day"; "Summary"]; ["Day 1"; "Arrival"]]
           [["Day"; "Summary"]; ["Day 1"; "Arrival"]; ["Day 2"; "Louvre"]]
           ltac:(repeat constructor) eq_refl eq_refl).
Defined.

(** ** Stop panels *)

Section PanelFacts.

Variable destination : string.
Variable fetch_image : string -> option string.

Abbreviation pstep := (process_line destination fetch_image).

(** Lines that do not start with [STOP:] leave the place name alone and
    only add to the text column. *)
Lemma fold_stop_line_rest (rest : list string) :
  forall acc : string * list Flowable,
    Forall (fun l => PyStr.startswith "STOP:" l = false) rest ->
    exists more,
      fold_left stop_line rest acc = (fst acc, snd acc ++ more).
Proof.
  induction rest as [|l rest IH]; intros [place_name details_text] H.
  - exists []. simpl. now rewrite app_nil_r.
  - inversion H as [|l' rest' Hl Hrest]; subst.
    change (fold_left stop_line (l :: rest) (place_name, details_text))
      with (fold_left stop_line rest (stop_line (place_name, details_text) l)).
    assert (E : exists one, stop_line (place_name, details_text) l =
                            (place_name, details_text ++ one)).
    { unfold stop_line. rewrite Hl. repeat split_if; eexists; reflexivity. }
    destruct E as (one & ->).
    destruct (IH (place_name, details_text ++ one) Hrest) as (more & ->).
    exists (one ++ more). simpl. now rewrite app_assoc.
Qed.

Lemma fold_stop_line_buffer (first : string) (rest : list string) :
  buffer_ok (first :: rest) ->
  exists more,
    fold_left stop_line (first :: rest) ("", []) =
    (place_of first, stop_heading (place_of first) :: more).
Proof.
  intros [Hfirst Hrest].
  change (fold_left stop_line (first :: rest) ("", []))
    with (fold_left stop_line rest (stop_line ("", []) first)).
  assert (E : stop_line ("", []) first =
              (place_of first, [stop_heading (place_of first)])).
  { unfold stop_line. rewrite Hfirst. reflexivity. }
  rewrite E.
  destruct (fold_stop_line_rest rest
              (place_of first, [stop_heading (place_of first)]) Hrest) as (more & ->).
  exists more. reflexivity.
Qed.

Lemma buffer_ok_step (s : State) (line : string) :
  buffer_ok (stop_buffer s) -> buffer_ok (stop_buffer (pstep s line)).
Proof.
  intros H. destruct s as [st day buf rows sec]. unfold process_line.
  cbn [story current_day stop_buffer timeline_data section_state] in *.
  destruct (PyStr.contains "TIMELINE_START" line); [exact H|].
  destruct (PyStr.contains "TIMELINE_END" line); [exact H|].
  destruct (PyStr.contains "ITINERARY_START" line); [exact H|].
  destruct (PyStr.contains "ITINERARY_END" line); [exact H|].
  destruct sec; cbv zeta.
  - repeat split_if; exact H.
  - repeat split_if; exact H.
  - destruct (PyStr.startswith "Day" line); [exact H|].
    destruct (PyStr.startswith "STOP:" line) eqn:Hstop.
    + destruct buf; simpl; (split; [exact Hstop | constructor]).
    + destruct buf as [|first rest]; [exact H|].
      destruct H as [Hfirst Hrest]. simpl. split; [exact Hfirst|].
      apply Forall_app. split; [exact Hrest | now repeat constructor].
Qed.

Lemma panels_step (s : State) (line : string) :
  buffer_ok (stop_buffer s) ->
  Forall (panel_headed destination fetch_image) (story s) ->
  Forall (panel_headed destination fetch_image) (story (pstep s line)).
Proof.
  intros Hbuf Hst.
  destruct (process_line_story destination fetch_image s line)
    as (extra & -> & [Hfree | [Hne ->]] & _); apply Forall_app; split; try exact Hst.
  - rewrite Forall_forall. intros b Hb. rewrite forallb_forall in Hfree.
    specialize (Hfree b Hb). destruct b; simpl; trivial. discriminate Hfree.
  - destruct (stop_buffer s) as [|first rest]; [congruence|].
    destruct (fold_stop_line_buffer first rest Hbuf) as (more & E).
    constructor; [|constructor; [exact I | constructor]].
    rewrite E. exists first, more.
    destruct Hbuf as [Hfirst _]. repeat split. exact Hfirst.
Qed.

Lemma panels_run (lines : list string) :
  forall s : State,
    buffer_ok (stop_buffer s) ->
    Forall (panel_headed destination fetch_image) (story s) ->
    Forall (panel_headed destination fetch_image)
           (story (run_lines destination fetch_image s lines)).
Proof.
  induction lines as [|raw rest IH]; intros s Hbuf Hst; [exact Hst|].
  rewrite run_lines_cons. unfold loop_body.
  destruct (PyStr.is_empty (PyStr.strip raw)); [now apply IH|].
  apply IH; [now apply buffer_ok_step | now apply panels_step].
Qed.

End PanelFacts.

(** X5.  Every stop panel of the story opens its text column with the
    heading of a place named on a [STOP:] line, and its image cell is
    the result of the image search for the destination followed by that
    same place name. *)
Theorem panels_open_with_place_heading :
  forall (destination : string) (fetch_image : string -> option string)
         (text_content : string),
    Forall (panel_headed destination fetch_image)
           (generate_pdf destination fetch_image text_content).
Proof.
  intros destination fetch_image text_content.
  apply panels_run; [exact I | constructor].
Qed.

Lemma food_line_exclusive (line : string) :
  PyStr.startswith "FOOD:" line = true ->
  PyStr.startswith "STOP:" line = false /\
  PyStr.startswith "BEST TIME:" line = false /\
  PyStr.startswith "LOGISTICS:" line = false.
Proof.
  unfold PyStr.startswith. intros H. rewrite (prefix_drop _ _ H). repeat split.
Qed.

Lemma stop_line_length (acc : string * list Flowable) (line : string) :
  length (snd (stop_line acc line)) =
  length (snd acc) + 1 + (if PyStr.startswith "FOOD:" line then 1 else 0).
Proof.
  destruct acc as [place_name details_text].
  destruct (PyStr.startswith "FOOD:" line) eqn:Hfood.
  - destruct (food_line_exclusive line Hfood) as (H1 & H2 & H3).
    unfold stop_line. rewrite H1, H2, H3, Hfood. simpl. rewrite length_app. simpl. lia.
  - unfold stop_line. rewrite Hfood.
    repeat split_if; simpl; rewrite length_app; simpl; lia.
Qed.

Lemma fold_stop_line_length (lines : list string) :
  forall acc : string * list Flowable,
    length (snd (fold_left stop_line lines acc)) =
    length (snd acc) + length lines +
    length (filter (PyStr.startswith "FOOD:") lines).
Proof.
  induction lines as [|l rest IH]; intros acc; [simpl; lia|].
  change (fold_left stop_line (l :: rest) acc)
    with (fold_left stop_line rest (stop_line acc l)).
  rewrite IH, stop_line_length. simpl filter. simpl length.
  destruct (PyStr.startswith "FOOD:" l); simpl; lia.
Qed.

(** X6.  [create_stop_table] appends one panel and one spacer, and the
    text column of the panel renders every buffered line: it has one
    element per line, and one more for each line starting with
    [FOOD:]. *)
Theorem stop_table_renders_every_line :
  forall (destination : string) (fetch_image : string -> option string)
         (st : list Flowable) (lines : list string),
    exists details_text img_col,
      create_stop_table destination fetch_image st lines =
        st ++ [KeepTogether details_text img_col; Spacer 1 15] /\
      length details_text =
        length lines + length (filter (PyStr.startswith "FOOD:") lines).
Proof.
  intros destination fetch_image st lines. rewrite create_stop_table_eq.
  eexists. eexists. split; [reflexivity|].
  rewrite fold_stop_line_length. reflexivity.
Qed.

(** ** The story and the section state along the input *)

(** X7.  The story only grows: the blocks appended while reading a
    prefix of the lines are still there, unchanged and in place, after
    the remaining lines. *)
Theorem story_only_grows :
  forall (destination : string) (fetch_image : string -> option string)
         (s : State) (lines1 lines2 : list string),
    exists extra,
      story (run_lines destination fetch_image s (lines1 ++ lines2)) =
      story (run_lines destination fetch_image s lines1) ++ extra.
Proof.
  intros destination fetch_image s lines1 lines2.
  rewrite run_lines_app. apply run_story_extends.
Qed.

Lemma no_marker_block_section (destination : string)
  (fetch_image : string -> option string) (lines : list string) :
  forall s : State,
    forallb no_marker lines = true ->
    section_state (run_lines destination fetch_image s lines) = section_state s.
Proof.
  induction lines as [|raw rest IH]; intros s H; [reflexivity|].
  simpl in H. apply andb_true_iff in H. destruct H as [Hraw Hrest].
  rewrite run_lines_cons, (IH _ Hrest), loop_body_section.
  unfold no_marker in Hraw.
  destruct (marker_of (PyStr.strip raw)); [discriminate Hraw | reflexivity].
Qed.

(** X8.  The section state at the end of the input is the one set by
    the last marker line, whatever came before it: the lines after it
    do not change it.  A section whose end marker is missing is still
    active when the input ends. *)
Theorem last_marker_sets_section :
  forall (destination : string) (fetch_image : string -> option string)
         (s : State) (pre : list string) (raw : string) (post : list string)
         (m : Marker),
    marker_of (PyStr.strip raw) = Some m ->
    forallb no_marker post = true ->
    section_state (run_lines destination fetch_image s (pre ++ raw :: post)) =
    section_after m.
Proof.
  intros destination fetch_image s pre raw post m Hm Hpost.
  rewrite run_lines_app, run_lines_cons, (no_marker_block_section _ _ _ _ Hpost).
  rewrite loop_body_section, Hm. destruct m; reflexivity.
Qed.

Lemma last_marker_sets_section_witness :
  section_state
    (run_lines "Paris" no_image initial_state
       (["TITLE: Paris Trip"; "TIMELINE_START"; "Day 1: Arrival"; "TIMELINE_END"] ++
        "ITINERARY_START" :: ["STOP: Eiffel Tower"; "BEST TIME: 9 AM"])) = ITINERARY.
Proof.
  exact (last_marker_sets_section "Paris" no_image initial_state
           ["TITLE: Paris Trip"; "TIMELINE_START"; "Day 1: Arrival"; "TIMELINE_END"]
           "ITINERARY_START" ["STOP: Eiffel Tower"; "BEST TIME: 9 AM"]
           ITINERARY_START eq_refl eq_refl).
Defined.

Lemma buffer_stays_empty (destination : string)
  (fetch_image : string -> option string) (s : State) (line : string) :
  stop_buffer s = [] ->
  PyStr.startswith "STOP:" line = false \/ section_state s <> ITINERARY ->
  stop_buffer (process_line destination fetch_image s line) = [].
Proof.
  intros Hb Hcase. destruct s as [st day buf rows sec]. unfold process_line.
  cbn [story current_day stop_buffer timeline_data section_state] in *. subst buf.
  destruct (PyStr.contains "TIMELINE_START" line); [reflexivity|].
  destruct (PyStr.contains "TIMELINE_END" line); [reflexivity|].
  destruct (PyStr.contains "ITINERARY_START" line); [reflexivity|].
  destruct (PyStr.contains "ITINERARY_END" line); [reflexivity|].
  destruct sec; cbv zeta.
  - repeat split_if; reflexivity.
  - repeat split_if; reflexivity.
  - destruct (PyStr.startswith "Day" line); [reflexivity|].
    destruct Hcase as [-> | Hsec]; [reflexivity | now elim Hsec].
Qed.

Lemma no_panel_run (destination : string) (fetch_image : string -> option string)
  (lines : list string) :
  forall s : State,
    stop_buffer s = [] ->
    forallb (fun raw => negb (opens_stop raw)) lines = true \/
    (section_state s <> ITINERARY /\
     forallb (fun raw => negb (opens_itinerary raw)) lines = true) ->
    exists extra,
      story (run_lines destination fetch_image s lines) = story s ++ extra /\
      forallb (fun b => negb (is_panel b)) extra = true.
Proof.
  induction lines as [|raw rest IH]; intros s Hb Hcase.
  - exists []. simpl. now rewrite app_nil_r.
  - rewrite run_lines_cons.
    assert (Hstep : stop_buffer (loop_body destination fetch_image s raw) = [] /\
                    exists e1, story (loop_body destination fetch_image s raw) =
                                 story s ++ e1 /\
                               forallb (fun b => negb (is_panel b)) e1 = true).
    { unfold loop_body. destruct (PyStr.is_empty (PyStr.strip raw)).
      - split; [exact Hb|]. exists []. now rewrite app_nil_r.
      - split.
        + apply buffer_stays_empty; [exact Hb|].
          destruct Hcase as [H | [H _]]; [left | now right].
          simpl in H. apply andb_true_iff in H. destruct H as [H _].
          now apply negb_true_iff in H.
        + destruct (process_line_story destination fetch_image s (PyStr.strip raw))
            as (e1 & Hst & [Hfree | [Hne _]] & _); [|congruence].
          now exists e1. }
    destruct Hstep as (Hb' & e1 & Hst1 & Hfree1).
    destruct (IH (loop_body destination fetch_image s raw) Hb') as (e2 & Hst2 & Hfree2).
    { destruct Hcase as [H | [Hsec H]];
        simpl in H; apply andb_true_iff in H; destruct H as [Hraw Hrest];
        [now left | right].
      split; [|exact Hrest]. rewrite loop_body_section.
      apply negb_true_iff in Hraw. unfold opens_itinerary in Hraw.
      unfold marker_of. rewrite Hraw.
      repeat split_if; try discriminate; exact Hsec. }
    exists (e1 ++ e2). split.
    + rewrite Hst2, Hst1, app_assoc. reflexivity.
    + rewrite forallb_app, Hfree1, Hfree2. reflexivity.
Qed.

(** X9.  Panels come from [STOP:] lines of the itinerary only: when no
    line of the input starts with [STOP:], or when no line contains
    [ITINERARY_START], the story has no stop panel (and no image is
    looked up). *)
Theorem no_panel_without_stop_lines :
  forall (destination : string) (fetch_image : string -> option string)
         (text_content : string),
    forallb (fun raw => negb (opens_stop raw)) (PyStr.split "010" text_content) = true \/
    forallb (fun raw => negb (opens_itinerary raw)) (PyStr.split "010" text_content) = true ->
    forallb (fun b => negb (is_panel b))
            (generate_pdf destination fetch_image text_content) = true.
Proof.
  intros destination fetch_image text_content H.
  destruct (no_panel_run destination fetch_image (PyStr.split "010" text_content)
              initial_state eq_refl) as (extra & Hst & Hfree).
  { destruct H as [H | H]; [now left | right]. split; [discriminate | exact H]. }
  unfold generate_pdf, final_state. rewrite Hst. exact Hfree.
Qed.

Lemma no_panel_without_stop_lines_witness :
  forallb (fun b => negb (is_panel b))
          (generate_pdf "Paris" no_image
             (lines_text ["TITLE: Paris Trip"; "STOP: Eiffel Tower"; "ITINERARY_END"])) = true.
Proof.
  apply (no_panel_without_stop_lines "Paris" no_image
           (lines_text ["TITLE: Paris Trip"; "STOP: Eiffel Tower"; "ITINERARY_END"])).
  right. vm_compute. reflexivity.
Defined.

(** ** The file name *)

Lemma prefix_char (x c : ascii) (s : string) :
  prefix (String x "") (String c s) = Ascii.eqb x c.
Proof.
  simpl. destruct (ascii_dec x c) as [E|N].
  - subst. rewrite Ascii.eqb_refl. destruct s; reflexivity.
  - apply Ascii.eqb_neq in N. now rewrite N.
Qed.

Lemma contains_char_nil (x : ascii) : PyStr.contains (String x "") "" = false.
Proof. reflexivity. Qed.

Lemma contains_char_app (x : ascii) (a b : string) :
  PyStr.contains (String x "") (a ++ b)%string =
  PyStr.contains (String x "") a || PyStr.contains (String x "") b.
Proof.
  induction a as [|c a IH].
  - reflexivity.
  - change ((String c a ++ b)%string) with (String c (a ++ b)%string).
    rewrite !contains_char_cons, IH. apply orb_assoc.
Qed.

Lemma replace_space (s : string) :
  PyStr.contains " " (PyStr.replace " " "_" s) = false /\
  String.length (PyStr.replace " " "_" s) = String.length s.
Proof.
  unfold PyStr.replace. induction s as [|c s [IH1 IH2]]; [now split|].
  cbn [PyStr.replace_from]. rewrite prefix_char.
  change (String.length " " - 1) with 0.
  destruct (Ascii.eqb " " c) eqn:E.
  - change (("_" ++ PyStr.replace_from " " "_" 0 s)%string)
      with (String "_" (PyStr.replace_from " " "_" 0 s)).
    rewrite contains_char_cons, IH1. simpl. now rewrite IH2.
  - rewrite contains_char_cons, E, IH1. simpl. now rewrite IH2.
Qed.

(** X10.  The name of the PDF file never contains a space, whatever the
    destination: each space of the destination becomes one underscore,
    so the name is 14 characters longer than the destination. *)
Theorem pdf_filename_has_no_space :
  forall destination : string,
    PyStr.contains " " (pdf_filename destination) = false /\
    String.length (pdf_filename destination) = String.length destination + 14.
Proof.
  intros destination. unfold pdf_filename.
  destruct (replace_space destination) as [H1 H2]. split.
  - rewrite !contains_char_app, H1. reflexivity.
  - rewrite !length_append, H2. simpl. lia.
Qed.

(** ** Keys and the main run *)

Lemma or_default_truthy (v : option string) (default : string) :
  PyStr.is_empty default = false ->
  PyStr.is_empty (or_default v default) = false.
Proof.
  intros H. unfold or_default. destruct v as [s|]; [|exact H].
  destruct (PyStr.is_empty s) eqn:E; [exact H | exact E].
Qed.

(** X11.  The three keys tested before the run are never empty: an
    unset or empty setting is replaced by its placeholder.  So the
    message about missing keys is never shown, whatever the environment,
    the secrets and the form hold. *)
Theorem keys_error_unreachable :
  forall (environ secrets : string -> option string)
         (submit_btn : bool) (source destination email : string)
         (raw_text : option string) (email_sent : bool)
         (resolver : string -> option string),
    all_truthy [OPENAI_KEY environ secrets; UNSPLASH_KEY environ secrets;
                EMAIL_PASSWORD environ secrets] = true /\
    ~ In error_keys_missing
         (main_run environ secrets submit_btn source destination email
                   raw_text email_sent resolver).
Proof.
  intros environ secrets submit_btn source destination email raw_text email_sent resolver.
  assert (K : all_truthy [OPENAI_KEY environ secrets; UNSPLASH_KEY environ secrets;
                          EMAIL_PASSWORD environ secrets] = true).
  { unfold all_truthy, OPENAI_KEY, UNSPLASH_KEY, EMAIL_PASSWORD. simpl forallb.
    rewrite !or_default_truthy by reflexivity. reflexivity. }
  split; [exact K|]. unfold main_run. rewrite K. cbn [negb].
  intros H.
  destruct submit_btn; [|destruct H].
  destruct (negb (all_truthy [source; destination; email])).
  { cbn [In] in H. destruct H as [H | []]. discriminate H. }
  destruct H as [H | H]; [discriminate H|].
  destruct raw_text as [text|]; [|destruct H].
  destruct (PyStr.is_empty text); [destruct H|].
  cbv zeta in H. cbn [In] in H.
  destruct H as [H | [H | H]]; try discriminate H.
  destruct email_sent; cbn [In] in H; [|destruct H].
  destruct H as [H | [H | []]]; discriminate H.
Qed.

(** X12.  A download is offered only at the end of a complete run: the
    form was submitted with source, destination and address filled in,
    the generator returned a non-empty text, and the mail was sent.  The
    file offered is the one named after the destination.  When the mail
    fails, the PDF is built but no download is offered. *)
Theorem download_only_after_mail :
  forall (environ secrets : string -> option string)
         (submit_btn : bool) (source destination email : string)
         (raw_text : option string) (email_sent : bool)
         (resolver : string -> option string) (pdf_file : string),
    In (download_button pdf_file)
       (main_run environ secrets submit_btn source destination email
                 raw_text email_sent resolver) ->
    submit_btn = true /\
    all_truthy [source; destination; email] = true /\
    (exists text, raw_text = Some text /\ PyStr.is_empty text = false) /\
    email_sent = true /\
    pdf_file = pdf_filename destination.
Proof.
  intros environ secrets submit_btn source destination email raw_text email_sent
         resolver pdf_file.
  unfold main_run. intros H.
  destruct submit_btn; [|destruct H].
  destruct (all_truthy [source; destination; email]); cbn [negb] in H.
  2: { cbn [In] in H. destruct H as [H | []]. discriminate H. }
  destruct (negb (all_truthy _)).
  { cbn [In] in H. destruct H as [H | []]. discriminate H. }
  destruct H as [H | H]; [discriminate H|].
  destruct raw_text as [text|]; [|destruct H].
  destruct (PyStr.is_empty text) eqn:E; [destruct H|].
  cbv zeta in H. cbn [In] in H.
  destruct H as [H | [H | H]]; try discriminate H.
  destruct email_sent; cbn [In] in H; [|destruct H].
  destruct H as [H | [H | []]]; [discriminate H|].
  injection H as <-. repeat split. exists text. now split.
Qed.

Lemma download_only_after_mail_witness :
  In (download_button "Itinerary_New_York.pdf")
     (main_run (fun _ => None) (fun _ => None) true "Paris" "New York" "a@b.c"
               (Some paris_input) true no_image) /\
  "Itinerary_New_York.pdf" = pdf_filename "New York".
Proof.
  assert (H : In (download_button "Itinerary_New_York.pdf")
                 (main_run (fun _ => None) (fun _ => None) true "Paris" "New York" "a@b.c"
                           (Some paris_input) true no_image)).
  { vm_compute. right. right. right. right. left. reflexivity. }
  split; [exact H|].
  exact (proj2 (proj2 (proj2 (proj2
           (download_only_after_mail (fun _ => None) (fun _ => None) true
              "Paris" "New York" "a@b.c" (Some paris_input) true no_image
              "Itinerary_New_York.pdf" H))))).
Defined.

(** ** Image download *)

Lemma create_stop_table_ext (destination : string)
  (f g : string -> option string) (st : list Flowable) (lines : list string) :
  (forall q, f q = g q) ->
  create_stop_table destination f st lines = create_stop_table destination g st lines.
Proof.
  intros H. rewrite !create_stop_table_eq. unfold image_cell. now rewrite H.
Qed.

Lemma run_lines_ext (destination : string) (f g : string -> option string)
  (lines : list string) :
  (forall q, f q = g q) ->
  forall s : State,
    run_lines destination f s lines = run_lines destination g s lines.
Proof.
  intros H. induction lines as [|raw rest IH]; intros s; [reflexivity|].
  rewrite !run_lines_cons, IH. f_equal.
  unfold loop_body. destruct (PyStr.is_empty (PyStr.strip raw)); [reflexivity|].
  unfold process_line.
  repeat rewrite (create_stop_table_ext destination f g _ _ H). reflexivity.
Qed.

(** X13.  When the photo search raises or returns no result for every
    query, or when every picture download raises, [fetch_image] gives no
    image for any query, and the story is the one built without images:
    all panels are kept, each with an empty image cell. *)
Theorem failed_downloads_give_text_only_story :
  forall (destination : string)
         (search : string -> Outcome (list Photo))
         (download : string -> Outcome string)
         (text_content : string),
    (forall query, search query = Raised \/ search query = Returned []) \/
    (forall img_url, download img_url = Raised) ->
    (forall query, fetch_image search download query = None) /\
    generate_pdf destination (fetch_image search download) text_content =
      generate_pdf destination no_image text_content.
Proof.
  intros destination search download text_content H.
  assert (N : forall query, fetch_image search download query = None).
  { intros query. unfold fetch_image. destruct H as [H | H].
    - destruct (H query) as [-> | ->]; reflexivity.
    - destruct (search query) as [|[|photo rest]]; try reflexivity.
      destruct (urls_small photo); [now rewrite H | reflexivity]. }
  split; [exact N|].
  unfold generate_pdf, final_state. f_equal. apply run_lines_ext. exact N.
Qed.

Lemma failed_downloads_give_text_only_story_witness :
  generate_pdf "Paris"
    (fetch_image (fun _ => Returned [{| urls_small := Some "https://example.org/a.jpg" |}])
                 (fun _ => Raised))
    paris_input =
  generate_pdf "Paris" no_image paris_input.
Proof.
  exact (proj2 (failed_downloads_give_text_only_story "Paris"
                  (fun _ => Returned [{| urls_small := Some "https://example.org/a.jpg" |}])
                  (fun _ => Raised) paris_input
                  (or_intror (fun _ => eq_refl)))).
Defined.

(** ** Code fences around the reply *)

Open Scope string_scope.

Lemma prefix_nil_l (s : string) : prefix "" s = true.
Proof. destruct s; reflexivity. Qed.

Lemma prefix_app_cases (w a b : string) :
  prefix w (a ++ b) = true ->
  prefix w a = true \/ exists k, k <> "" /\ w = a ++ k /\ prefix k b = true.
Proof.
  revert w. induction a as [|c a IH]; intros w H.
  - destruct w as [|x w]; [left; reflexivity|].
    right. exists (String x w). repeat split; [discriminate | exact H].
  - destruct w as [|x w]; [left; reflexivity|].
    change (String c a ++ b) with (String c (a ++ b)) in H.
    apply prefix_cons in H. destruct H as [-> H].
    destruct (IH w H) as [Hl | (k & Hk & -> & Hb)].
    + left. apply prefix_cons. now split.
    + right. exists k. repeat split; assumption.
Qed.

(** No whitespace character of more than one byte ends with a line
    feed. *)
Lemma whitespace_ending_in_newline (w : string) :
  In w PyStr.whitespace -> prefix nl (PyStr.rev w) = true -> w = nl.
Proof.
  intros Hin Hw.
  assert (H : forallb (fun w => negb (prefix nl (PyStr.rev w)) || String.eqb w nl)
                      PyStr.whitespace = true) by reflexivity.
  rewrite forallb_forall in H. specialize (H w Hin). rewrite Hw in H.
  now apply String.eqb_eq in H.
Qed.

Lemma trimmed_then_newline (j : string) :
  j <> "" ->
  PyStr.drop_one PyStr.whitespace j = None ->
  PyStr.drop_one PyStr.whitespace (j ++ nl) = None.
Proof.
  intros Hj H. rewrite drop_one_None in *. rewrite Forall_forall in *.
  intros w Hin. specialize (H w Hin). simpl in H.
  destruct (prefix w (j ++ nl)) eqn:E; [|reflexivity].
  destruct (prefix_app_cases _ _ _ E) as [Hl | (k & Hk & -> & Hb)]; [congruence|].
  assert (Hk' : k = nl).
  { destruct k as [|x k]; [congruence|]. unfold nl in Hb.
    apply prefix_cons in Hb. destruct Hb as [-> Hb].
    destruct k; [reflexivity | discriminate Hb]. }
  subst k.
  assert (Hw : j ++ nl = nl).
  { apply whitespace_ending_in_newline; [exact Hin|].
    rewrite rev_append. change (PyStr.rev nl) with nl. apply prefix_append. }
  destruct j as [|c j]; [congruence|].
  injection Hw as _ Hw. destruct j; discriminate Hw.
Qed.

Lemma drop_one_newline (y : string) :
  PyStr.drop_one PyStr.whitespace (String "010" y) = Some y /\
  PyStr.drop_one (map PyStr.rev PyStr.whitespace) (String "010" y) = Some y.
Proof. destruct y; split; reflexivity. Qed.

Lemma lstrip_with_newline (tbl : list string) (y : string) :
  PyStr.drop_one tbl (String "010" y) = Some y ->
  PyStr.drop_one tbl y = None ->
  PyStr.lstrip_with tbl (String "010" y) = y.
Proof.
  intros H1 H2. unfold PyStr.lstrip_with. cbn [String.length PyStr.lstrip_fuel].
  rewrite H1. apply (lstrip_with_fixed tbl y H2).
Qed.

(** Stripping a trimmed text that stands between two line feeds gives
    the text back. *)
Lemma strip_between_newlines (j : string) :
  trimmed j -> PyStr.strip (nl ++ j ++ nl) = j.
Proof.
  intros [Hl Hr]. destruct j as [|c j]; [reflexivity|].
  set (t := String c j) in *.
  unfold PyStr.strip, PyStr.lstrip, PyStr.rstrip.
  change (nl ++ t ++ nl) with (String "010" (t ++ nl)).
  rewrite lstrip_with_newline;
    [| apply drop_one_newline | apply trimmed_then_newline; [discriminate | exact Hl]].
  rewrite rev_append. change (PyStr.rev nl ++ PyStr.rev t) with (String "010" (PyStr.rev t)).
  rewrite lstrip_with_newline; [| apply drop_one_newline | exact Hr].
  apply rev_involutive.
Qed.

Lemma take_append (a b : string) : PyStr.take (String.length a) (a ++ b) = a.
Proof. induction a as [|c a IH]; simpl; [destruct b; reflexivity | now rewrite IH]. Qed.

Lemma fenced_trimmed (tag body : string) : trimmed (fenced tag body).
Proof.
  split; [reflexivity|]. unfold fenced.
  rewrite !rev_append. reflexivity.
Qed.

Lemma cut_trailing_fence (a : string) :
  (if PyStr.endswith "```" (a ++ "```")
   then PyStr.take (String.length (a ++ "```") - 3) (a ++ "```")
   else a ++ "```") = a.
Proof.
  assert (E : PyStr.endswith "```" (a ++ "```") = true).
  { unfold PyStr.endswith. rewrite rev_append. apply prefix_append. }
  rewrite E, length_append. simpl String.length.
  replace (String.length a + 3 - 3) with (String.length a) by lia.
  apply take_append.
Qed.

(** X14.  A reply wrapped in a code fence, tagged [json] or untagged,
    with each fence on its own line, is unwrapped to exactly the text
    between the fences, provided that text is trimmed. *)
Theorem fenced_reply_is_unwrapped :
  forall body : string,
    trimmed body ->
    json_text (fenced "json" body) = body /\ json_text (fenced "" body) = body.
Proof.
  intros body Hb. unfold json_text.
  rewrite !(strip_trimmed _ (fenced_trimmed _ _)). cbv zeta.
  assert (E : forall tail : string,
             String "010" (body ++ nl ++ tail) = (nl ++ body ++ nl) ++ tail).
  { intros tail. unfold nl. simpl. now rewrite append_assoc. }
  split.
  - change (PyStr.startswith "```json" (fenced "json" body)) with true. cbv iota.
    change (PyStr.drop 7 (fenced "json" body))
      with (String "010" (body ++ nl ++ "```")).
    change (PyStr.startswith "```" (String "010" (body ++ nl ++ "```"))) with false.
    cbv iota. rewrite E, cut_trailing_fence. now apply strip_between_newlines.
  - change (PyStr.startswith "```json" (fenced "" body)) with false. cbv iota.
    change (PyStr.startswith "```" (fenced "" body)) with true. cbv iota.
    change (PyStr.drop 3 (fenced "" body))
      with (String "010" (body ++ nl ++ "```")).
    rewrite E, cut_trailing_fence. now apply strip_between_newlines.
Qed.

Lemma fenced_reply_is_unwrapped_witness :
  trimmed "{}" /\ json_text (fenced "json" "{}") = "{}".
Proof.
  assert (H : trimmed "{}") by (split; reflexivity).
  split; [exact H|]. exact (proj1 (fenced_reply_is_unwrapped "{}" H)).
Defined.

Lemma fence_prefix (content : string) :
  PyStr.startswith "```" content = false ->
  PyStr.startswith "```json" content = false.
Proof.
  unfold PyStr.startswith. intros H.
  destruct (prefix "```json" content) eqn:E; [|reflexivity].
  rewrite (prefix_drop _ _ E) in H.
  change ("```json" ++ PyStr.drop (String.length "```json") content)
    with ("```" ++ "json" ++ PyStr.drop (String.length "```json") content) in H.
  rewrite prefix_append in H. discriminate H.
Qed.

(** X15.  A reply that, once stripped, neither starts nor ends with a
    code fence is passed on stripped and otherwise unchanged. *)
Theorem unfenced_reply_is_kept :
  forall reply : string,
    PyStr.startswith "```" (PyStr.strip reply) = false ->
    PyStr.endswith "```" (PyStr.strip reply) = false ->
    json_text reply = PyStr.strip reply.
Proof.
  intros reply Hs He. unfold json_text. cbv zeta.
  rewrite (fence_prefix _ Hs), Hs, He. apply strip_idempotent.
Qed.

Lemma unfenced_reply_is_kept_witness :
  json_text ("  [1, 2]" ++ nl) = "[1, 2]".
Proof.
  exact (unfenced_reply_is_kept ("  [1, 2]" ++ nl) eq_refl eq_refl).
Defined.

Open Scope list_scope.

(** ** General text *)



